(** * ICT FaceKit loader: a shallow embedding of [operators/face_model_loader.py]

    The loader [loadICTFaceModel] is a sequence of host calls (file probes,
    a JSON read, Blender operators) guarded by checks.  It is embedded as a
    program in a state-and-exception monad over

    - a [Host]: the file system and the Blender operators, as functions the
      development quantifies over;
    - a [state]: the Blender scene (objects are referred to by handle, as the
      Python code holds references to them) and the trace of calls made and
      of log records written.

    Modelling conventions:
    - [os.path] is [posixpath];
    - [logger.debug] records are not part of the trace (their payloads are
      [repr]s of host values, and the [os.getcwd()] of line 35 is taken to
      return); INFO, WARNING and ERROR records are;
    - the services of the host raise subclasses of [Exception] only;
    - a string is the sequence of the bytes of its UTF-8 encoding;
    - the name an object carries once [obj.name = name] is run is the host's
      to decide (Blender keeps the names of its objects unique and appends a
      numeric suffix on a clash): the [stored_name] of the host;
    - [itertools.count()] is unbounded: the identity loop takes fuel and
      answers [Timeout] when it runs out. *)

From stdpp Require Import base option list list_numbers strings pretty.
From Stdlib Require Import ZArith Ascii Floats.SpecFloat.

Set Default Proof Using "Type".
Set Warnings "-register-all".
Local Open Scope string_scope.
Local Open Scope list_scope.

(** ** Python values and exceptions *)

(** The value [json.load] returns.  A JSON object becomes a [dict], which
    keeps its keys in insertion order: an association list (a [dict] never
    holds a key twice). *)
Inductive json : Type :=
  | JNull
  | JBool (b : bool)
  | JInt (z : Z)
  | JFloat (f : spec_float)
  | JStr (s : string)
  | JArr (items : list json)
  | JObj (members : list (string * json)).

(** The operation of the interpreter that rejected its operand. *)
Inductive type_error : Type :=
  | NotSubscriptable   (* [config['expressions']] on a non-dict *)
  | NotIterable        (* [for ... in] over a number, a bool or None *)
  | BadOperand.        (* [expression_name + '.obj'] on a non-str *)

Inductive exn : Type :=
  | ValueError (msg : string)
  | FileNotFoundError (msg : string)
  | ImportError (msg : string)
  | KeyError (key : string)
  | TypeError (what : type_error)
  | HostError (cls msg : string).   (* raised inside a host service *)

(** [str(e)].  A [TypeError] of the interpreter is never caught by the
    loader, its text is not modelled. *)
Definition str_exn (e : exn) : string :=
  match e with
  | ValueError msg | FileNotFoundError msg | ImportError msg => msg
  | KeyError key => "'" +:+ key +:+ "'"
  | TypeError _ => ""
  | HostError _ msg => msg
  end.

(** [bool(config)], as [not config] needs it. *)
Definition truthy (j : json) : bool :=
  match j with
  | JNull => false
  | JBool b => b
  | JInt z => negb (z =? 0)%Z
  | JFloat (S754_zero _) => false
  | JFloat _ => true
  | JStr s => negb (String.eqb s "")
  | JArr items => match items with [] => false | _ => true end
  | JObj members => match members with [] => false | _ => true end
  end.

Fixpoint dict_get (members : list (string * json)) (key : string) : option json :=
  match members with
  | [] => None
  | (k, v) :: rest => if String.eqb k key then Some v else dict_get rest key
  end.

(** [config[key]] for a string key. *)
Definition subscript (j : json) (key : string) : exn + json :=
  match j with
  | JObj members =>
      match dict_get members key with
      | Some v => inr v
      | None => inl (KeyError key)
      end
  | _ => inl (TypeError NotSubscriptable)
  end.

(** A string that goes on the character before it: its first byte is a
    continuation byte [10xxxxxx]. *)
Definition continues (s : string) : bool :=
  match s with
  | String (Ascii _ _ _ _ _ _ b6 b7) _ => b7 && negb b6
  | EmptyString => false
  end.

(** The characters of a [str]: a character is a leading byte and the
    continuation bytes after it. *)
Fixpoint characters (s : string) : list string :=
  match s with
  | EmptyString => []
  | String c s' =>
      match characters s' with
      | first :: rest =>
          if continues s' then String c first :: rest
          else String c EmptyString :: first :: rest
      | [] => [String c EmptyString]
      end
  end.

(** Each character of a [str] is a [str] of its own. *)
Definition chars (s : string) : list json := JStr <$> characters s.

(** The sequence a [for] loop over the value runs through. *)
Definition iterate (j : json) : exn + list json :=
  match j with
  | JArr items => inr items
  | JStr s => inr (chars s)
  | JObj members => inr (JStr <$> members.*1)
  | _ => inl (TypeError NotIterable)
  end.

(** ** Paths and names *)

Definition startswith_sep (s : string) : bool :=
  match s with
  | String c _ => Ascii.eqb c "/"%char
  | EmptyString => false
  end.

Fixpoint endswith_sep (s : string) : bool :=
  match s with
  | EmptyString => false
  | String c EmptyString => Ascii.eqb c "/"%char
  | String _ s' => endswith_sep s'
  end.

(** [os.path.join(a, b)] *)
Definition path_join (a b : string) : string :=
  if startswith_sep b then b
  else if String.eqb a "" || endswith_sep a then a +:+ b
  else a +:+ "/" +:+ b.

Fixpoint zeros (n : nat) : string :=
  match n with
  | 0 => ""
  | S n' => String "0"%char (zeros n')
  end.

(** ["{:03d}".format(n)]: decimal, padded with zeros on the left up to three
    characters, longer numbers unchanged. *)
Definition format_03d (n : nat) : string :=
  let digits := pretty n in
  zeros (3 - String.length digits) +:+ digits.

Definition face_model_name : string := "ICTFaceModel".
Definition generic_neutral_filename : string := "generic_neutral_mesh.obj".
Definition config_filename : string := "vertex_indices.json".

(** [identity_morph_target_name.format(identity_num)] *)
Definition identity_name (identity_num : nat) : string :=
  "identity" +:+ format_03d identity_num.

Definition identity_filepath (folderpath : string) (identity_num : nat) : string :=
  path_join folderpath (identity_name identity_num +:+ ".obj").

Definition expression_filepath (folderpath expression_name : string) : string :=
  path_join folderpath (expression_name +:+ ".obj").

(** ** The host: Blender's scene and operators, the file system *)

(** A mesh object of the scene.  Python holds references to objects; the
    model holds their handles [ob_id] and keeps the objects in the scene. *)
Record object : Type := Object {
  ob_id : nat;
  ob_name : string;
  ob_select : bool;
}.

Record Scene : Type := MkScene {
  objects : list object;     (* in the order [bpy.context] lists them *)
  active : option nat;       (* [bpy.context.view_layer.objects.active] *)
}.

(** The set an operator returns; the loader only writes it to the debug log. *)
Inductive op_status : Type := FINISHED | CANCELLED.

(** A call of a [bpy.ops] operator returns a status or raises; either way it
    may have changed the scene. *)
Inductive op_outcome : Type :=
  | OpReturned (status : op_status) (sc : Scene)
  | OpRaised (cls msg : string) (sc : Scene).

(** [open(path)] followed by [json.load]. *)
Inductive load_outcome : Type :=
  | Loaded (j : json)
  | DecodeError (msg : string)          (* json.JSONDecodeError, [msg] its [str] *)
  | LoadRaised (cls msg : string).      (* anything else: OSError, UnicodeDecodeError *)

Record Host : Type := MkHost {
  has_wm_obj_import : bool;             (* hasattr(bpy.ops.wm, 'obj_import') *)
  has_import_scene_obj : bool;          (* hasattr(bpy.ops.import_scene, 'obj') *)
  wm_obj_import : string -> Scene -> op_outcome;
  import_scene_obj : string -> Scene -> op_outcome;
  object_join_shapes : Scene -> op_outcome;
  object_delete : Scene -> op_outcome;
  (* the name object [h] carries once [name] is assigned to it in [sc] *)
  stored_name : Scene -> nat -> string -> string;
  path_isdir : string -> bool;
  path_exists : string -> bool;
  json_load : string -> load_outcome;
}.

Inductive level : Type := INFO | WARNING | ERROR.

(** What the loader does to the world, as it happens. *)
Inductive event : Type :=
  | EvIsDir (path : string)
  | EvExists (path : string)
  | EvOpen (path : string)
  | EvImportObj (filepath : string)     (* a call of [import_obj] *)
  | EvJoinShapes (sc : Scene)           (* [join_shapes], with the scene it is run on *)
  | EvDelete (sc : Scene)                (* [delete], likewise *)
  | EvLog (lvl : level) (msg : string).

(** The trace has the latest event first. *)
Record state : Type := MkState {
  scene : Scene;
  trace : list event;
}.

(** ** The monad of the loader *)

Inductive outcome (A : Type) : Type :=
  | Ret (a : A)
  | Raise (e : exn)
  | Timeout.
Arguments Ret {A} a.
Arguments Raise {A} e.
Arguments Timeout {A}.

(** A raise keeps the state: nothing that was done to the scene is undone. *)
Definition M (A : Type) : Type := state -> outcome A * state.

#[global] Instance M_ret : MRet M := fun A a st => (Ret a, st).

#[global] Instance M_bind : MBind M := fun A B f m st =>
  match m st with
  | (Ret a, st') => f a st'
  | (Raise e, st') => (Raise e, st')
  | (Timeout, st') => (Timeout, st')
  end.

Definition raise {A} (e : exn) : M A := fun st => (Raise e, st).

Definition timeout {A} : M A := fun st => (Timeout, st).

(** [try: body  except Exception as e: handler e] *)
Definition try_except {A} (body : M A) (handler : exn -> M A) : M A := fun st =>
  match body st with
  | (Raise e, st') => handler e st'
  | r => r
  end.

Definition lift {A} (r : exn + A) : M A :=
  match r with
  | inl e => raise e
  | inr a => mret a
  end.

Definition emit (ev : event) : M unit := fun st =>
  (Ret tt, MkState (scene st) (ev :: trace st)).

Definition log (lvl : level) (msg : string) : M unit := emit (EvLog lvl msg).

Definition get_scene : M Scene := fun st => (Ret (scene st), st).

Definition put_scene (sc : Scene) : M unit := fun st => (Ret tt, MkState sc (trace st)).

(** [bpy.context.selected_objects], as handles. *)
Definition selected (sc : Scene) : list nat :=
  ob_id <$> List.filter ob_select (objects sc).

Definition rename (h : nat) (name : string) (o : object) : object :=
  if Nat.eqb (ob_id o) h then Object (ob_id o) name (ob_select o) else o.

Definition mark_selected (h : nat) (o : object) : object :=
  if Nat.eqb (ob_id o) h then Object (ob_id o) (ob_name o) true else o.

(** [obj.select_set(True)] *)
Definition select_set_true (h : nat) : M unit :=
  sc ← get_scene; put_scene (MkScene (mark_selected h <$> objects sc) (active sc)).

(** [bpy.context.view_layer.objects.active = obj] *)
Definition set_active (h : nat) : M unit :=
  sc ← get_scene; put_scene (MkScene (objects sc) (Some h)).

Definition selected_objects : M (list nat) :=
  sc ← get_scene; mret (selected sc).

(** ** The loader *)

(** What one round of the identity loop decides. *)
Inductive round : Type :=
  | Collected (h : nat)    (* imported: append and go on *)
  | Skipped                (* [continue] *)
  | Stopped.               (* [break] *)

Section Loader.
Context (host : Host).

Definition os_path_isdir (path : string) : M bool :=
  emit (EvIsDir path);; mret (path_isdir host path).

Definition os_path_exists (path : string) : M bool :=
  emit (EvExists path);; mret (path_exists host path).

Definition call_op (op : Scene -> op_outcome) : M op_status := fun st =>
  match op (scene st) with
  | OpReturned status sc => (Ret status, MkState sc (trace st))
  | OpRaised cls msg sc => (Raise (HostError cls msg), MkState sc (trace st))
  end.

(** [obj.name = name] *)
Definition set_name (h : nat) (name : string) : M unit :=
  sc ← get_scene;
  put_scene (MkScene (rename h (stored_name host sc h name) <$> objects sc) (active sc)).

(** [import_obj(filepath)]: the Blender 4.x operator when there is one, the
    legacy operator otherwise. *)
Definition import_obj (filepath : string) : M op_status :=
  emit (EvImportObj filepath);;
  if has_wm_obj_import host then call_op (wm_obj_import host filepath)
  else if has_import_scene_obj host then call_op (import_scene_obj host filepath)
  else raise (ImportError "No OBJ importer found in Blender").

(** Lines 43-62: the folder and the two required files. *)
Definition check_inputs (folderpath : string) : M (string * string) :=
  isdir ← os_path_isdir folderpath;
  if negb isdir then
    log ERROR ("Invalid directory path: " +:+ folderpath);;
    raise (ValueError ("Invalid directory path: " +:+ folderpath))
  else
    let generic_neutral_filepath := path_join folderpath generic_neutral_filename in
    let config_filepath := path_join folderpath config_filename in
    neutral ← os_path_exists generic_neutral_filepath;
    if negb neutral then
      log ERROR ("Cannot find neutral mesh: " +:+ generic_neutral_filepath);;
      raise (FileNotFoundError ("Cannot find neutral mesh: " +:+ generic_neutral_filepath))
    else
      config ← os_path_exists config_filepath;
      if negb config then
        log ERROR ("Cannot find config file: " +:+ config_filepath);;
        raise (FileNotFoundError ("Cannot find config file: " +:+ config_filepath))
      else mret (generic_neutral_filepath, config_filepath).

(** Lines 65-75: the settings.  Only json.JSONDecodeError is handled; the
    ValueError of the empty configuration is raised inside the [try] and is
    not one. *)
Definition load_settings (config_filepath : string) : M json :=
  emit (EvOpen config_filepath);;
  match json_load host config_filepath with
  | LoadRaised cls msg => raise (HostError cls msg)
  | DecodeError msg =>
      log ERROR ("Invalid JSON in config file: " +:+ config_filepath);;
      log ERROR ("JSON error: " +:+ msg);;
      raise (ValueError ("Invalid JSON in config file: " +:+ config_filepath))
  | Loaded config =>
      if negb (truthy config) then
        log ERROR "Empty configuration file";;
        raise (ValueError "Empty configuration file")
      else mret config
  end.

(** Lines 78-96: the neutral mesh.  The ImportError of the empty selection is
    raised inside the [try], so the handler wraps it like any other. *)
Definition load_generic_neutral (generic_neutral_filepath : string) : M nat :=
  try_except
    (log INFO ("Attempting to import neutral mesh: " +:+ generic_neutral_filepath);;
     import_obj generic_neutral_filepath;;
     sel ← selected_objects;
     match sel with
     | [] =>
         log ERROR "No objects selected after import";;
         raise (ImportError "Failed to import neutral mesh")
     | face_model_neutral_object :: _ =>
         set_name face_model_neutral_object face_model_name;;
         log INFO "Successfully imported neutral mesh";;
         mret face_model_neutral_object
     end)
    (fun e =>
       log ERROR ("Error importing neutral mesh: " +:+ str_exn e);;
       log ERROR "Import error details:";;
       raise (ImportError ("Error importing neutral mesh: " +:+ str_exn e))).

(** Lines 108-123: the [try] of one round of the expression loop; [None] is
    [continue]. *)
Definition import_expression (expression_name filepath : string) : M (option nat) :=
  try_except
    (log INFO ("Reading expression morph target: " +:+ expression_name);;
     import_obj filepath;;
     sel ← selected_objects;
     match sel with
     | [] =>
         log WARNING ("Failed to import expression " +:+ expression_name);;
         mret None
     | imported_object :: _ =>
         set_name imported_object expression_name;;
         mret (Some imported_object)
     end)
    (fun e =>
       log ERROR ("Error importing expression " +:+ expression_name +:+ ": " +:+ str_exn e);;
       mret None).

(** Lines 101-123, over what is left of the sequence. *)
Fixpoint expressions_loop (folderpath : string) (rest : list json)
    (expression_names : list string) (expression_models : list nat)
    : M (list string * list nat) :=
  match rest with
  | [] => mret (expression_names, expression_models)
  | JStr expression_name :: rest' =>
      let filename := expression_name +:+ ".obj" in
      let filepath := path_join folderpath filename in
      found ← os_path_exists filepath;
      if negb found then
        log WARNING ("Expression morph target not found: " +:+ filepath);;
        expressions_loop folderpath rest' expression_names expression_models
      else
        imported ← import_expression expression_name filepath;
        match imported with
        | None => expressions_loop folderpath rest' expression_names expression_models
        | Some imported_object =>
            expressions_loop folderpath rest'
              (expression_names ++ [expression_name])
              (expression_models ++ [imported_object])
        end
  | _ :: _ => raise (TypeError BadOperand)    (* [expression_name + '.obj'] *)
  end.

(** Lines 99-123. *)
Definition load_expressions (folderpath : string) (config : json)
    : M (list string * list nat) :=
  declared ← lift (subscript config "expressions");
  items ← lift (iterate declared);
  expressions_loop folderpath items [] [].

(** Lines 140-155: the [try] of one round of the identity loop. *)
Definition import_identity (identity_name filepath : string) : M round :=
  try_except
    (log INFO ("Reading identity morph target: " +:+ identity_name);;
     import_obj filepath;;
     sel ← selected_objects;
     match sel with
     | [] =>
         log WARNING ("Failed to import identity " +:+ identity_name);;
         mret Skipped
     | imported_object :: _ =>
         set_name imported_object identity_name;;
         mret (Collected imported_object)
     end)
    (fun e =>
       log ERROR ("Error loading identity morph target " +:+ identity_name +:+ ": " +:+ str_exn e);;
       mret Stopped).

(** Lines 128-155, from [identity_num] on. *)
Fixpoint identities_loop (fuel : nat) (folderpath : string) (identity_num : nat)
    (identity_names : list string) (identity_models : list nat)
    : M (list string * list nat) :=
  match fuel with
  | 0 => timeout
  | S fuel' =>
      let name := identity_name identity_num in
      let filepath := path_join folderpath (name +:+ ".obj") in
      found ← os_path_exists filepath;
      if negb found then
        (if Nat.eqb identity_num 0 then log INFO "No identity morph targets found"
         else log INFO ("No more identity morph targets found after "
                        +:+ pretty (identity_num - 1)));;
        mret (identity_names, identity_models)
      else
        r ← import_identity name filepath;
        match r with
        | Stopped => mret (identity_names, identity_models)
        | Skipped =>
            identities_loop fuel' folderpath (S identity_num) identity_names identity_models
        | Collected imported_object =>
            identities_loop fuel' folderpath (S identity_num)
              (identity_names ++ [name]) (identity_models ++ [imported_object])
        end
  end.

(** Lines 125-155. *)
Definition load_identities (fuel : nat) (folderpath : string)
    : M (list string * list nat) :=
  identities_loop fuel folderpath 0 [] [].

Fixpoint select_all (models : list nat) : M unit :=
  match models with
  | [] => mret tt
  | model :: rest => select_set_true model;; select_all rest
  end.

(** Lines 157-171: the check and the assembly. *)
Definition join_morph_targets (face_model_neutral_object : nat)
    (expression_models identity_models : list nat) : M unit :=
  match expression_models, identity_models with
  | [], [] => raise (ValueError "No valid morph targets found in directory")
  | _, _ =>
      select_all expression_models;;
      select_all identity_models;;
      set_active face_model_neutral_object;;
      sc ← get_scene;
      emit (EvJoinShapes sc);;
      call_op (object_join_shapes host);;
      sc' ← get_scene;
      emit (EvDelete sc');;
      call_op (object_delete host);;
      mret tt
  end.

Definition loadICTFaceModel (fuel : nat) (folderpath : string) : M (nat * nat) :=
  log INFO ("Starting model load from directory: " +:+ folderpath);;
  '(generic_neutral_filepath, config_filepath) ← check_inputs folderpath;
  config ← load_settings config_filepath;
  face_model_neutral_object ← load_generic_neutral generic_neutral_filepath;
  '(_, expression_models) ← load_expressions folderpath config;
  '(_, identity_models) ← load_identities fuel folderpath;
  join_morph_targets face_model_neutral_object expression_models identity_models;;
  mret (length expression_models, length identity_models).

(** What the import operator of the host answers on a scene, if the host
    has one: the pure content of [import_obj]. *)
Definition obj_import_outcome (filepath : string) (sc : Scene) : option op_outcome :=
  if has_wm_obj_import host then Some (wm_obj_import host filepath sc)
  else if has_import_scene_obj host then Some (import_scene_obj host filepath sc)
  else None.

(** The import returns and leaves an object selected. *)
Definition import_succeeds (filepath : string) (sc : Scene) : bool :=
  match obj_import_outcome filepath sc with
  | Some (OpReturned _ sc') => match selected sc' with [] => false | _ :: _ => true end
  | _ => false
  end.

(** [h] is the object an import of [filepath] leaves first in the selection,
    on some scene. *)
Definition imported_from (filepath : string) (h : nat) : Prop :=
  ∃ sc status sc' rest,
    obj_import_outcome filepath sc = Some (OpReturned status sc') ∧
    selected sc' = h :: rest.

End Loader.

(** The state once the opening INFO record is written. *)
Definition started (folderpath : string) (st : state) : state :=
  MkState (scene st)
    (EvLog INFO ("Starting model load from directory: " +:+ folderpath) :: trace st).

(** The state once the folder and the two files are found and the settings
    are read. *)
Definition settled (folderpath : string) (st : state) : state :=
  let neutral := path_join folderpath generic_neutral_filename in
  let config := path_join folderpath config_filename in
  MkState (scene st)
    (EvOpen config :: EvExists config :: EvExists neutral :: EvIsDir folderpath
     :: trace (started folderpath st)).

(** What a stage that did not return hands to the caller: its exception, or
    the lack of fuel. *)
Definition passed {A} (r : outcome A * state) : outcome (nat * nat) * state :=
  match r with
  | (Raise e, st') => (Raise e, st')
  | (_, st') => (Timeout, st')
  end.

(** The host's [join_shapes] and [delete] return, whatever the scene. *)
Definition assembles (host : Host) : Prop :=
  ∀ sc, (∃ status sc', object_join_shapes host sc = OpReturned status sc') ∧
        (∃ status sc', object_delete host sc = OpReturned status sc').

(** ** The error kinds of the specification

    The loader raises built-in exceptions; the kinds the specification names
    are told apart by class and, for [ValueError], by the message of the
    [raise] statement. *)
Module Spec.
Inductive error_kind : Type :=
  | NotFoundError
  | ConfigError
  | ImportError
  | NoMorphTargetsError.
End Spec.

Definition kind_of (e : exn) : option Spec.error_kind :=
  match e with
  | FileNotFoundError _ => Some Spec.NotFoundError
  | ImportError _ => Some Spec.ImportError
  | ValueError msg =>
      if String.prefix "Invalid directory path: " msg then Some Spec.NotFoundError
      else if String.eqb msg "Empty configuration file" then Some Spec.ConfigError
      else if String.prefix "Invalid JSON in config file: " msg then Some Spec.ConfigError
      else if String.eqb msg "No valid morph targets found in directory"
      then Some Spec.NoMorphTargetsError
      else None
  | _ => None
  end.

(** The files [import_obj] was called on, latest first. *)
Fixpoint import_calls (tr : list event) : list string :=
  match tr with
  | [] => []
  | EvImportObj filepath :: tr' => filepath :: import_calls tr'
  | _ :: tr' => import_calls tr'
  end.

(** The paths [os.path.exists] was asked about, latest first. *)
Fixpoint probes (tr : list event) : list string :=
  match tr with
  | [] => []
  | EvExists path :: tr' => path :: probes tr'
  | _ :: tr' => probes tr'
  end.

(** ** A host to run the loader on

    A folder given by the list of its files, a manifest, and an importer
    that adds one selected object per call, unless the file is listed as
    [raising] (the operator raises) or [silent] (it returns and selects
    nothing). *)
Module Demo.

Definition mem (path : string) (paths : list string) : bool :=
  existsb (String.eqb path) paths.

Definition deselect (o : object) : object := Object (ob_id o) (ob_name o) false.

Definition obj_import (raising silent : list string) (filepath : string) (sc : Scene)
    : op_outcome :=
  if mem filepath raising then OpRaised "RuntimeError" "Error: cannot read file" sc
  else if mem filepath silent then
    OpReturned CANCELLED (MkScene (deselect <$> objects sc) (active sc))
  else
    OpReturned FINISHED
      (MkScene ((deselect <$> objects sc) ++ [Object (length (objects sc)) filepath true])
               (active sc)).

Definition join_shapes (sc : Scene) : op_outcome := OpReturned FINISHED sc.

Definition delete (sc : Scene) : op_outcome :=
  OpReturned FINISHED
    (MkScene (List.filter (fun o => negb (ob_select o)) (objects sc)) (active sc)).

Definition host (folder : string) (files : list string) (manifest : load_outcome)
    (raising silent : list string) : Host := {|
  has_wm_obj_import := true;
  has_import_scene_obj := false;
  wm_obj_import := obj_import raising silent;
  import_scene_obj := obj_import raising silent;
  object_join_shapes := join_shapes;
  object_delete := delete;
  stored_name := fun _ _ name => name;
  path_isdir := String.eqb folder;
  path_exists := fun path => mem path files;
  json_load := fun _ => manifest;
|}.

Definition empty : state := MkState (MkScene [] None) [].

Definition smile_frown : load_outcome :=
  Loaded (JObj [("expressions", JArr [JStr "smile"; JStr "frown"])]).

End Demo.

(** ** A host that keeps names unique

    Like [Demo.host], with an importer that returns [{'CANCELLED'}] and leaves
    the scene as it is on the files listed as [cancelled].  A name that
    another object of the scene carries is stored with the suffix [.001], as
    Blender does on a first clash. *)
Module Unique.

Definition taken (sc : Scene) (h : nat) (name : string) : bool :=
  existsb (fun o => negb (Nat.eqb (ob_id o) h) && String.eqb (ob_name o) name)
    (objects sc).

Definition unique_name (sc : Scene) (h : nat) (name : string) : string :=
  if taken sc h name then name +:+ ".001" else name.

Definition obj_import (cancelled : list string) (filepath : string) (sc : Scene)
    : op_outcome :=
  if Demo.mem filepath cancelled then OpReturned CANCELLED sc
  else Demo.obj_import [] [] filepath sc.

Definition host (folder : string) (files : list string) (manifest : load_outcome)
    (cancelled : list string) : Host := {|
  has_wm_obj_import := true;
  has_import_scene_obj := false;
  wm_obj_import := obj_import cancelled;
  import_scene_obj := obj_import cancelled;
  object_join_shapes := Demo.join_shapes;
  object_delete := Demo.delete;
  stored_name := unique_name;
  path_isdir := String.eqb folder;
  path_exists := fun path => Demo.mem path files;
  json_load := fun _ => manifest;
|}.

End Unique.

(** ** The operator of the file browser

    [BrowseFaceModel.execute] (lines 193-214) takes the folder of the path
    the user picked and runs the loader on it. *)

(** [p.rfind('/')]: the index of the last separator, [-1] when there is
    none. *)
Fixpoint rfind_sep (p : string) : Z :=
  match p with
  | EmptyString => (-1)%Z
  | String c p' =>
      let i := rfind_sep p' in
      if (0 <=? i)%Z then (1 + i)%Z
      else if Ascii.eqb c "/"%char then 0%Z
      else (-1)%Z
  end.

(** [head == sep*len(head)] *)
Fixpoint all_sep (s : string) : bool :=
  match s with
  | EmptyString => true
  | String c s' => Ascii.eqb c "/"%char && all_sep s'
  end.

(** [head.rstrip(sep)] *)
Fixpoint rstrip_sep (s : string) : string :=
  match s with
  | EmptyString => EmptyString
  | String c s' =>
      match rstrip_sep s' with
      | EmptyString => if Ascii.eqb c "/"%char then EmptyString else String c EmptyString
      | r => String c r
      end
  end.

(** [os.path.dirname(p)] *)
Definition dirname (p : string) : string :=
  let i := (rfind_sep p + 1)%Z in
  let head := String.substring 0 (Z.to_nat i) p in
  if negb (String.eqb head "") && negb (all_sep head) then rstrip_sep head else head.

(** The two kinds of report the operator makes: [{'INFO'}] and [{'ERROR'}]. *)
Inductive report_type : Type := RPT_INFO | RPT_ERROR.

Module BrowseFaceModel.

(** The operator object: the path picked in the file browser and what
    [self.report] was given, latest first. *)
Record t : Type := Operator {
  filepath : string;
  reports : list (report_type * string);
}.

(** [self.report(type, message)] *)
Definition report (type : report_type) (message : string) (self : t) : t :=
  Operator (filepath self) ((type, message) :: reports self).

Section Execute.
Context (host : Host).

(** The state in which [execute] calls the loader. *)
Definition entered (self : t) (st : state) : state :=
  let directory := dirname (filepath self) in
  MkState (scene st)
    (EvIsDir directory :: EvExists directory
     :: EvLog INFO ("Extracted directory: " +:+ directory)
     :: EvLog INFO ("Selected filepath: " +:+ filepath self) :: trace st).

(** The message of the report of a success. *)
Definition loaded_message (num_expressions num_identities : nat) : string :=
  "Face model loaded successfully with " +:+ pretty num_expressions
  +:+ " expressions and " +:+ pretty num_identities +:+ " identities".

(** Lines 193-214.  The two debug records are not traced, the probes their
    f-strings make are.  The result is the set returned and the operator with
    its report.  The text of the ERROR report is built with [str_exn], which
    does not model the text of a TypeError of the interpreter. *)
Definition execute (fuel : nat) (self : t) : M (op_status * t) :=
  try_except
    (log INFO ("Selected filepath: " +:+ filepath self);;
     let directory := dirname (filepath self) in
     log INFO ("Extracted directory: " +:+ directory);;
     os_path_exists host directory;;
     os_path_isdir host directory;;
     '(num_expressions, num_identities) ← loadICTFaceModel host fuel directory;
     log INFO ("Successfully loaded " +:+ pretty num_expressions +:+ " expressions and "
               +:+ pretty num_identities +:+ " identities");;
     mret (FINISHED,
           report RPT_INFO
             ("Face model loaded successfully with " +:+ pretty num_expressions
              +:+ " expressions and " +:+ pretty num_identities +:+ " identities")
             self))
    (fun e =>
       log ERROR "Error in execute:";;
       mret (CANCELLED,
             report RPT_ERROR ("Error loading face model: " +:+ str_exn e) self)).

End Execute.

End BrowseFaceModel.

(** ** Notions the further properties are stated with *)

(** Since [st], [import_obj] was only called on files that exist. *)
Definition imports_found (host : Host) (st st' : state) : Prop :=
  ∃ calls,
    import_calls (trace st') = calls ++ import_calls (trace st) ∧
    Forall (fun path => path_exists host path = true) calls.

(** The objects once [select_set(True)] is called on each of [models]. *)
Definition select_models (models : list nat) (objs : list object) : list object :=
  foldl (fun objs model => mark_selected model <$> objs) objs models.

(** The scene [join_shapes] is run on: the collected objects selected on top
    of what was selected, the neutral mesh active. *)
Definition joined_scene (base : nat) (expression_models identity_models : list nat)
    (sc : Scene) : Scene :=
  MkScene (select_models identity_models (select_models expression_models (objects sc)))
    (Some base).

(** In [sc] there is an object with the handle [h]. *)
Definition present_in (sc : Scene) (h : nat) : Prop :=
  ∃ o, o ∈ objects sc ∧ ob_id o = h.

(** Every object of [sc] with the handle [h] is selected. *)
Definition selected_in (sc : Scene) (h : nat) : Prop :=
  ∀ o, o ∈ objects sc → ob_id o = h → ob_select o = true.

(** From [sc] to [sc'] no object was removed. *)
Definition keeps_objects (sc sc' : Scene) : Prop :=
  ∀ h, present_in sc h → present_in sc' h.

(** An importer that removes nothing and that, when it returns, has first in
    the selection an object that was not in the scene. *)
Definition tidy_importer (host : Host) : Prop :=
  ∀ filepath sc,
    match obj_import_outcome host filepath sc with
    | Some (OpReturned _ sc') =>
        keeps_objects sc sc' ∧ (∀ h rest, selected sc' = h :: rest → ¬ present_in sc h)
    | Some (OpRaised _ _ sc') => keeps_objects sc sc'
    | None => True
    end.

(** The handles [hs] are those of different objects of [sc]. *)
Definition all_present (sc : Scene) (hs : list nat) : Prop :=
  NoDup hs ∧ ∀ h, h ∈ hs → present_in sc h.

(** An item of the manifest that is a string. *)
Definition is_str (j : json) : bool :=
  match j with
  | JStr _ => true
  | _ => false
  end.

(** A host like [Demo.host] whose importer gives each new object a handle
    above all the handles of the scene. *)
Module Studio.

Definition obj_import (filepath : string) (sc : Scene) : op_outcome :=
  OpReturned FINISHED
    (MkScene ((Demo.deselect <$> objects sc)
              ++ [Object (S (max_list (ob_id <$> objects sc))) filepath true])
             (active sc)).

Definition host (folder : string) (files : list string) (manifest : load_outcome)
    : Host := {|
  has_wm_obj_import := true;
  has_import_scene_obj := false;
  wm_obj_import := obj_import;
  import_scene_obj := obj_import;
  object_join_shapes := Demo.join_shapes;
  object_delete := Demo.delete;
  stored_name := fun _ _ name => name;
  path_isdir := String.eqb folder;
  path_exists := fun path => Demo.mem path files;
  json_load := fun _ => manifest;
|}.

End Studio.

(** * Properties *)

Ltac unfold_M :=
  repeat progress
    unfold mbind, M_bind, mret, M_ret, raise, timeout, try_except, lift, log, emit,
      get_scene, put_scene, selected_objects, set_name, select_set_true, set_active,
      os_path_isdir, os_path_exists, call_op in *.

Section Rounds.
Context (host : Host).

Lemma import_obj_run filepath st :
  import_obj host filepath st =
    let tr := EvImportObj filepath :: trace st in
    match obj_import_outcome host filepath (scene st) with
    | Some (OpReturned status sc) => (Ret status, MkState sc tr)
    | Some (OpRaised cls msg sc) => (Raise (HostError cls msg), MkState sc tr)
    | None => (Raise (ImportError "No OBJ importer found in Blender"),
               MkState (scene st) tr)
    end.
Proof.
  unfold import_obj, obj_import_outcome. unfold_M. simpl.
  destruct (has_wm_obj_import host); simpl.
  - destruct (wm_obj_import host filepath (scene st)); reflexivity.
  - destruct (has_import_scene_obj host); simpl; [|reflexivity].
    destruct (import_scene_obj host filepath (scene st)); reflexivity.
Qed.

Lemma import_expression_run name filepath st :
  import_expression host name filepath st =
    let tr := EvImportObj filepath
              :: EvLog INFO ("Reading expression morph target: " +:+ name) :: trace st in
    match obj_import_outcome host filepath (scene st) with
    | Some (OpReturned _ sc) =>
        match selected sc with
        | [] => (Ret None,
                 MkState sc (EvLog WARNING ("Failed to import expression " +:+ name) :: tr))
        | h :: _ => (Ret (Some h),
                     MkState (MkScene (rename h (stored_name host sc h name) <$> objects sc) (active sc)) tr)
        end
    | Some (OpRaised cls msg sc) =>
        (Ret None,
         MkState sc (EvLog ERROR ("Error importing expression " +:+ name +:+ ": " +:+ msg)
                     :: tr))
    | None =>
        (Ret None,
         MkState (scene st)
           (EvLog ERROR ("Error importing expression " +:+ name +:+ ": "
                         +:+ "No OBJ importer found in Blender") :: tr))
    end.
Proof.
  unfold import_expression. unfold_M. rewrite import_obj_run. cbn [scene trace].
  destruct (obj_import_outcome host filepath (scene st)) as [[status sc|cls msg sc]|];
    cbn; try reflexivity.
  destruct (selected sc); reflexivity.
Qed.

Lemma import_identity_run name filepath st :
  import_identity host name filepath st =
    let tr := EvImportObj filepath
              :: EvLog INFO ("Reading identity morph target: " +:+ name) :: trace st in
    match obj_import_outcome host filepath (scene st) with
    | Some (OpReturned _ sc) =>
        match selected sc with
        | [] => (Ret Skipped,
                 MkState sc (EvLog WARNING ("Failed to import identity " +:+ name) :: tr))
        | h :: _ => (Ret (Collected h),
                     MkState (MkScene (rename h (stored_name host sc h name) <$> objects sc) (active sc)) tr)
        end
    | Some (OpRaised cls msg sc) =>
        (Ret Stopped,
         MkState sc (EvLog ERROR ("Error loading identity morph target " +:+ name +:+ ": "
                                  +:+ msg) :: tr))
    | None =>
        (Ret Stopped,
         MkState (scene st)
           (EvLog ERROR ("Error loading identity morph target " +:+ name +:+ ": "
                         +:+ "No OBJ importer found in Blender") :: tr))
    end.
Proof.
  unfold import_identity. unfold_M. rewrite import_obj_run. cbn [scene trace].
  destruct (obj_import_outcome host filepath (scene st)) as [[status sc|cls msg sc]|];
    cbn; try reflexivity.
  destruct (selected sc); reflexivity.
Qed.

Lemma load_generic_neutral_run filepath st :
  load_generic_neutral host filepath st =
    let tr := EvImportObj filepath
              :: EvLog INFO ("Attempting to import neutral mesh: " +:+ filepath)
              :: trace st in
    let failed (msg : string) (sc : Scene) (tr' : list event) :=
      (Raise (ImportError ("Error importing neutral mesh: " +:+ msg)),
       MkState sc (EvLog ERROR "Import error details:"
                   :: EvLog ERROR ("Error importing neutral mesh: " +:+ msg) :: tr')) in
    match obj_import_outcome host filepath (scene st) with
    | Some (OpReturned _ sc) =>
        match selected sc with
        | [] => failed "Failed to import neutral mesh" sc
                  (EvLog ERROR "No objects selected after import" :: tr)
        | h :: _ =>
            (Ret h,
             MkState (MkScene (rename h (stored_name host sc h face_model_name) <$> objects sc) (active sc))
               (EvLog INFO "Successfully imported neutral mesh" :: tr))
        end
    | Some (OpRaised cls msg sc) => failed msg sc tr
    | None => failed "No OBJ importer found in Blender" (scene st) tr
    end.
Proof.
  unfold load_generic_neutral. unfold_M. rewrite import_obj_run. cbn [scene trace].
  destruct (obj_import_outcome host filepath (scene st)) as [[status sc|cls msg sc]|];
    cbn; try reflexivity.
  destruct (selected sc); reflexivity.
Qed.

End Rounds.

Section Loops.
Context (host : Host) (folderpath : string).

Lemma import_expression_returns name filepath st :
  ∃ r st', import_expression host name filepath st = (Ret r, st').
Proof.
  rewrite import_expression_run. cbn zeta.
  destruct (obj_import_outcome host filepath (scene st)) as [[status sc|cls msg sc]|];
    [destruct (selected sc)|..]; eauto.
Qed.

Lemma import_identity_returns name filepath st :
  ∃ r st', import_identity host name filepath st = (Ret r, st').
Proof.
  rewrite import_identity_run. cbn zeta.
  destruct (obj_import_outcome host filepath (scene st)) as [[status sc|cls msg sc]|];
    [destruct (selected sc)|..]; eauto.
Qed.

(** One round of the expression loop on a string. *)
Lemma expressions_loop_cons name rest names models st :
  expressions_loop host folderpath (JStr name :: rest) names models st =
    let filepath := expression_filepath folderpath name in
    let probed := MkState (scene st) (EvExists filepath :: trace st) in
    if path_exists host filepath then
      match import_expression host name filepath probed with
      | (Ret (Some h), st1) =>
          expressions_loop host folderpath rest (names ++ [name]) (models ++ [h]) st1
      | (Ret None, st1) => expressions_loop host folderpath rest names models st1
      | (Raise e, st1) => (Raise e, st1)
      | (Timeout, st1) => (Timeout, st1)
      end
    else
      expressions_loop host folderpath rest names models
        (MkState (scene st)
           (EvLog WARNING ("Expression morph target not found: " +:+ filepath)
            :: EvExists filepath :: trace st)).
Proof.
  cbn [expressions_loop]. unfold expression_filepath. unfold_M. cbn [scene trace].
  destruct (path_exists host _); cbn [negb]; [|reflexivity].
  destruct (import_expression host name _ _) as [[[h|]|e|] st1]; reflexivity.
Qed.

(** One round of the identity loop. *)
Lemma identities_loop_S fuel n names models st :
  identities_loop host (S fuel) folderpath n names models st =
    let filepath := identity_filepath folderpath n in
    let probed := MkState (scene st) (EvExists filepath :: trace st) in
    if path_exists host filepath then
      match import_identity host (identity_name n) filepath probed with
      | (Ret (Collected h), st1) =>
          identities_loop host fuel folderpath (S n)
            (names ++ [identity_name n]) (models ++ [h]) st1
      | (Ret Skipped, st1) => identities_loop host fuel folderpath (S n) names models st1
      | (Ret Stopped, st1) => (Ret (names, models), st1)
      | (Raise e, st1) => (Raise e, st1)
      | (Timeout, st1) => (Timeout, st1)
      end
    else
      (Ret (names, models),
       MkState (scene st)
         (EvLog INFO
            (if Nat.eqb n 0 then "No identity morph targets found"
             else "No more identity morph targets found after " +:+ pretty (n - 1))
          :: EvExists filepath :: trace st)).
Proof.
  cbn [identities_loop]. unfold identity_filepath. unfold_M. cbn [scene trace].
  destruct (path_exists host _); cbn [negb].
  - destruct (import_identity host _ _ _) as [[[h| |]|e|] st1]; reflexivity.
  - destruct (Nat.eqb n 0); reflexivity.
Qed.

(** The expression loop over strings never raises. *)
Lemma expressions_loop_total names acc_names acc_models st :
  ∃ r st', expressions_loop host folderpath (JStr <$> names) acc_names acc_models st
           = (Ret r, st').
Proof.
  revert acc_names acc_models st.
  induction names as [|name names IH]; intros acc_names acc_models st.
  - cbn. unfold_M. eauto.
  - rewrite fmap_cons, expressions_loop_cons. cbn zeta.
    destruct (path_exists host _); [|apply IH].
    destruct (import_expression_returns name (expression_filepath folderpath name)
                (MkState (scene st)
                   (EvExists (expression_filepath folderpath name) :: trace st)))
      as ([h|] & st1 & ->); apply IH.
Qed.

(** What the expression loop adds to its accumulators is, in order, taken from
    the items it ran over. *)
Lemma expressions_loop_sublist items acc_names acc_models st names models st' :
  expressions_loop host folderpath items acc_names acc_models st
    = (Ret (names, models), st') →
  ∃ new_names new_models,
    names = acc_names ++ new_names ∧ models = acc_models ++ new_models ∧
    length new_models = length new_names ∧
    (JStr <$> new_names) `sublist_of` items.
Proof.
  revert acc_names acc_models st.
  induction items as [|item items IH]; intros acc_names acc_models st Hrun.
  - cbn in Hrun. unfold_M. injection Hrun as <- <- <-.
    exists [], []. rewrite !app_nil_r. repeat split; constructor.
  - destruct item as [| | | |name| |]; try (cbn in Hrun; unfold_M; discriminate).
    rewrite expressions_loop_cons in Hrun. cbn zeta in Hrun.
    destruct (path_exists host _).
    + destruct (import_expression host name _ _) as [[[h|]|e|] st1]; try discriminate.
      * apply IH in Hrun as (ns & ms & -> & -> & Hlen & Hsub).
        exists (name :: ns), (h :: ms). rewrite <- !app_assoc. cbn.
        repeat split; [lia|]. by constructor.
      * apply IH in Hrun as (ns & ms & -> & -> & Hlen & Hsub).
        exists ns, ms. repeat split; [done|]. by constructor.
    + apply IH in Hrun as (ns & ms & -> & -> & Hlen & Hsub).
      exists ns, ms. repeat split; [done|]. by constructor.
Qed.

Lemma import_expression_succeeds name filepath st :
  import_succeeds host filepath (scene st) = true →
  ∃ h st', import_expression host name filepath st = (Ret (Some h), st').
Proof.
  rewrite import_expression_run. unfold import_succeeds. cbn zeta.
  destruct (obj_import_outcome host filepath (scene st)) as [[status sc|cls msg sc]|];
    [destruct (selected sc)|..]; try discriminate; eauto.
Qed.

Lemma import_expression_imported name filepath st h st' :
  import_expression host name filepath st = (Ret (Some h), st') →
  imported_from host filepath h.
Proof.
  rewrite import_expression_run. cbn zeta.
  destruct (obj_import_outcome host filepath (scene st)) as [[status sc|cls msg sc]|]
    eqn:Himport; [|discriminate..].
  destruct (selected sc) as [|h' rest] eqn:Hsel; [discriminate|].
  intros [= <- _]. by exists (scene st), status, sc, rest.
Qed.

Lemma import_expression_fails name filepath st :
  import_succeeds host filepath (scene st) = false →
  ∃ st', import_expression host name filepath st = (Ret None, st').
Proof.
  rewrite import_expression_run. unfold import_succeeds. cbn zeta.
  destruct (obj_import_outcome host filepath (scene st)) as [[status sc|cls msg sc]|];
    [destruct (selected sc)|..]; try discriminate; eauto.
Qed.

Lemma import_identity_succeeds name filepath st :
  import_succeeds host filepath (scene st) = true →
  ∃ h st', import_identity host name filepath st = (Ret (Collected h), st').
Proof.
  rewrite import_identity_run. unfold import_succeeds. cbn zeta.
  destruct (obj_import_outcome host filepath (scene st)) as [[status sc|cls msg sc]|];
    [destruct (selected sc)|..]; try discriminate; eauto.
Qed.

Lemma import_identity_probes name filepath st r st' :
  import_identity host name filepath st = (r, st') →
  probes (trace st') = probes (trace st).
Proof.
  rewrite import_identity_run. cbn zeta.
  destruct (obj_import_outcome host filepath (scene st)) as [[status sc|cls msg sc]|];
    [destruct (selected sc)|..]; intros [= <- <-]; reflexivity.
Qed.

(** With imports that succeed or fail whatever the scene, the expression
    loop collects the names whose file is there and imports. *)
Lemma expressions_loop_collects (good : string → bool) names :
  (∀ name sc, name ∈ names →
     path_exists host (expression_filepath folderpath name) = true →
     import_succeeds host (expression_filepath folderpath name) sc = good name) →
  let kept name := path_exists host (expression_filepath folderpath name) && good name in
  ∀ acc_names acc_models st, ∃ new_models st',
    expressions_loop host folderpath (JStr <$> names) acc_names acc_models st
      = (Ret (acc_names ++ List.filter kept names, acc_models ++ new_models), st') ∧
    Forall2 (fun name h => imported_from host (expression_filepath folderpath name) h)
      (List.filter kept names) new_models.
Proof.
  intros Hgood kept. induction names as [|name names IH]; intros acc_names acc_models st.
  - exists [], st. rewrite !app_nil_r. split; [done|constructor].
  - rewrite fmap_cons, expressions_loop_cons. cbn zeta. cbn [List.filter].
    change (kept name)
      with (path_exists host (expression_filepath folderpath name) && good name).
    destruct (path_exists host (expression_filepath folderpath name)) eqn:Hfound;
      cbn [andb].
    + set (probed := MkState _ _).
      pose proof (Hgood name (scene probed) (list_elem_of_here _ _) Hfound) as Himp.
      destruct (good name).
      * destruct (import_expression_succeeds name _ _ Himp) as (h & st1 & Hround).
        rewrite Hround. apply import_expression_imported in Hround.
        destruct (IH ltac:(intros; apply Hgood; [by apply list_elem_of_further|done])
                    (acc_names ++ [name]) (acc_models ++ [h]) st1)
          as (ms & st' & -> & Hfrom).
        exists (h :: ms), st'. rewrite <- !app_assoc. split; [done|by constructor].
      * destruct (import_expression_fails name _ _ Himp) as (st1 & ->).
        apply IH. intros; apply Hgood; [by apply list_elem_of_further|done].
    + apply IH. intros; apply Hgood; [by apply list_elem_of_further|done].
Qed.

(** Identity files at [0 .. k-1] that import, no file at [k]: the loop, run
    from [n], times out on too little fuel and otherwise collects
    [n .. k-1], having asked for the files [n .. k] and no other. *)
Lemma identities_loop_contiguous k :
  (∀ i, i < k → path_exists host (identity_filepath folderpath i) = true) →
  path_exists host (identity_filepath folderpath k) = false →
  (∀ i sc, i < k → import_succeeds host (identity_filepath folderpath i) sc = true) →
  ∀ (fuel n : nat) acc_names acc_models st, (n ≤ k)%nat →
    ((fuel ≤ k - n)%nat →
       ∃ st', identities_loop host fuel folderpath n acc_names acc_models st
              = (Timeout, st')) ∧
    (k - n < fuel →
       ∃ new_models st',
         identities_loop host fuel folderpath n acc_names acc_models st
           = (Ret (acc_names ++ (identity_name <$> seq n (k - n)),
                   acc_models ++ new_models), st') ∧
         length new_models = k - n ∧
         probes (trace st')
           = reverse (identity_filepath folderpath <$> seq n (S (k - n)))
             ++ probes (trace st)).
Proof.
  intros Hpresent Habsent Himports.
  induction fuel as [|fuel IH]; intros n acc_names acc_models st Hn.
  { split; [|lia]. intros _. cbn. unfold_M. eauto. }
  rewrite identities_loop_S. cbn zeta.
  destruct (decide (n = k)) as [->|Hne].
  - rewrite Habsent, Nat.sub_diag. split; [lia|]. intros _.
    exists [], (MkState (scene st)
      (EvLog INFO
         (if Nat.eqb k 0 then "No identity morph targets found"
          else "No more identity morph targets found after " +:+ pretty (k - 1))
       :: EvExists (identity_filepath folderpath k) :: trace st)).
    rewrite !app_nil_r. done.
  - rewrite Hpresent by lia. set (probed := MkState _ _).
    destruct (import_identity_succeeds (identity_name n) _ probed
                (Himports n (scene probed) ltac:(lia))) as (h & st1 & Hround).
    rewrite Hround. apply import_identity_probes in Hround.
    destruct (IH (S n) (acc_names ++ [identity_name n]) (acc_models ++ [h]) st1
                ltac:(lia)) as [Hout Hret].
    split.
    + intros Hfuel. apply Hout. lia.
    + intros Hfuel. destruct Hret as (ms & st' & -> & Hlen & Hprobes); [lia|].
      exists (h :: ms), st'. rewrite <- !app_assoc.
      replace (k - n) with (S (k - S n)) by lia. cbn [seq fmap list_fmap app].
      split_and!; [done|cbn; lia|].
      rewrite Hprobes, Hround. subst probed. cbn [trace probes].
      rewrite (reverse_cons _ (identity_filepath folderpath n)), <- app_assoc. done.
Qed.

(** The identity loop never raises. *)
Lemma identities_loop_no_raise fuel n names models st e st' :
  identities_loop host fuel folderpath n names models st ≠ (Raise e, st').
Proof.
  revert n names models st. induction fuel as [|fuel IH]; intros n names models st.
  - cbn. unfold_M. discriminate.
  - rewrite identities_loop_S. cbn zeta.
    destruct (path_exists host _); [|discriminate].
    destruct (import_identity_returns (identity_name n) (identity_filepath folderpath n)
                (MkState (scene st)
                   (EvExists (identity_filepath folderpath n) :: trace st)))
      as ([h| |] & st1 & ->); [apply IH|apply IH|discriminate].
Qed.

(** A missing file at [k] stops the loop, started at or below [k], within
    [k - n + 1] rounds. *)
Lemma identities_loop_halts k :
  path_exists host (identity_filepath folderpath k) = false →
  ∀ (fuel n : nat) names models st, (n ≤ k)%nat → k - n < fuel →
    ∃ r st', identities_loop host fuel folderpath n names models st = (Ret r, st').
Proof.
  intros Habsent. induction fuel as [|fuel IH]; intros n names models st Hn Hfuel; [lia|].
  rewrite identities_loop_S. cbn zeta.
  destruct (path_exists host (identity_filepath folderpath n)) eqn:Hfound; [|eauto].
  assert (n ≠ k) by congruence.
  destruct (import_identity_returns (identity_name n) (identity_filepath folderpath n)
              (MkState (scene st)
                 (EvExists (identity_filepath folderpath n) :: trace st)))
    as ([h| |] & st1 & ->); [apply IH; lia|apply IH; lia|eauto].
Qed.

(** More fuel does not change what the loop returned. *)
Lemma identities_loop_fuel_mono fuel fuel' n names models st r st' :
  identities_loop host fuel folderpath n names models st = (Ret r, st') →
  (fuel ≤ fuel')%nat →
  identities_loop host fuel' folderpath n names models st = (Ret r, st').
Proof.
  revert fuel' n names models st.
  induction fuel as [|fuel IH]; intros fuel' n names models st Hrun Hle.
  { cbn in Hrun. unfold_M. discriminate. }
  destruct fuel' as [|fuel']; [lia|].
  rewrite identities_loop_S in Hrun |- *. cbn zeta in *.
  destruct (path_exists host _); [|done].
  destruct (import_identity host _ _ _) as [[[h| |]|e|] st1]; try done;
    apply IH; [done|lia|done|lia].
Qed.

End Loops.

Section Stages.
Context (host : Host).

(** The loader, stage by stage. *)
Lemma loadICTFaceModel_stages fuel folderpath st :
  loadICTFaceModel host fuel folderpath st =
    match check_inputs host folderpath (started folderpath st) with
    | (Ret (generic_neutral_filepath, config_filepath), st1) =>
      match load_settings host config_filepath st1 with
      | (Ret config, st2) =>
        match load_generic_neutral host generic_neutral_filepath st2 with
        | (Ret face_model_neutral_object, st3) =>
          match load_expressions host folderpath config st3 with
          | (Ret (_, expression_models), st4) =>
            match load_identities host fuel folderpath st4 with
            | (Ret (_, identity_models), st5) =>
              match join_morph_targets host face_model_neutral_object
                      expression_models identity_models st5 with
              | (Ret _, st6) =>
                  (Ret (length expression_models, length identity_models), st6)
              | r => passed r
              end
            | r => passed r
            end
          | r => passed r
          end
        | r => passed r
        end
      | r => passed r
      end
    | r => passed r
    end.
Proof.
  unfold loadICTFaceModel, started.
  unfold mbind at 1, M_bind at 1, log at 1, emit at 1. cbn beta iota.
  unfold mbind at 1, M_bind at 1.
  destruct (check_inputs host folderpath _) as [[[np cp]|e|] st1]; try reflexivity.
  unfold mbind at 1, M_bind at 1.
  destruct (load_settings host cp st1) as [[config|e|] st2]; try reflexivity.
  unfold mbind at 1, M_bind at 1.
  destruct (load_generic_neutral host np st2) as [[h|e|] st3]; try reflexivity.
  unfold mbind at 1, M_bind at 1.
  destruct (load_expressions host folderpath config st3) as [[[en em]|e|] st4];
    try reflexivity.
  unfold mbind at 1, M_bind at 1.
  destruct (load_identities host fuel folderpath st4) as [[[inn im]|e|] st5];
    reflexivity.
Qed.

Lemma check_inputs_run folderpath st :
  check_inputs host folderpath st =
    let neutral := path_join folderpath generic_neutral_filename in
    let config := path_join folderpath config_filename in
    let tr0 := EvIsDir folderpath :: trace st in
    let tr1 := EvExists neutral :: tr0 in
    let tr2 := EvExists config :: tr1 in
    if path_isdir host folderpath then
      if path_exists host neutral then
        if path_exists host config then (Ret (neutral, config), MkState (scene st) tr2)
        else
          (Raise (FileNotFoundError ("Cannot find config file: " +:+ config)),
           MkState (scene st)
             (EvLog ERROR ("Cannot find config file: " +:+ config) :: tr2))
      else
        (Raise (FileNotFoundError ("Cannot find neutral mesh: " +:+ neutral)),
         MkState (scene st)
           (EvLog ERROR ("Cannot find neutral mesh: " +:+ neutral) :: tr1))
    else
      (Raise (ValueError ("Invalid directory path: " +:+ folderpath)),
       MkState (scene st)
         (EvLog ERROR ("Invalid directory path: " +:+ folderpath) :: tr0)).
Proof.
  unfold check_inputs. unfold_M. cbn [scene trace].
  destruct (path_isdir host folderpath); cbn [negb]; [|reflexivity].
  destruct (path_exists host (path_join folderpath generic_neutral_filename));
    cbn [negb]; [|reflexivity].
  destruct (path_exists host (path_join folderpath config_filename)); reflexivity.
Qed.

Lemma load_settings_run config_filepath st :
  load_settings host config_filepath st =
    let tr := EvOpen config_filepath :: trace st in
    match json_load host config_filepath with
    | LoadRaised cls msg => (Raise (HostError cls msg), MkState (scene st) tr)
    | DecodeError msg =>
        (Raise (ValueError ("Invalid JSON in config file: " +:+ config_filepath)),
         MkState (scene st)
           (EvLog ERROR ("JSON error: " +:+ msg)
            :: EvLog ERROR ("Invalid JSON in config file: " +:+ config_filepath) :: tr))
    | Loaded config =>
        if truthy config then (Ret config, MkState (scene st) tr)
        else
          (Raise (ValueError "Empty configuration file"),
           MkState (scene st) (EvLog ERROR "Empty configuration file" :: tr))
    end.
Proof.
  unfold load_settings. unfold_M. cbn [scene trace].
  destruct (json_load host config_filepath) as [config|msg|cls msg]; try reflexivity.
  destruct (truthy config); reflexivity.
Qed.

Lemma select_all_run models st :
  ∃ sc, select_all models st = (Ret tt, MkState sc (trace st)) ∧
        active sc = active (scene st).
Proof.
  revert st. induction models as [|h models IH]; intros [sc tr].
  - exists sc. done.
  - cbn [select_all]. unfold_M. cbn [scene trace objects active].
    destruct (IH (MkState (MkScene (mark_selected h <$> objects sc) (active sc)) tr))
      as (sc' & -> & Hactive).
    exists sc'. done.
Qed.

Lemma select_all_scene models st :
  select_all models st
    = (Ret tt,
       MkState (MkScene (select_models models (objects (scene st))) (active (scene st)))
         (trace st)).
Proof.
  revert st. induction models as [|model models IH]; intros [[objs act] tr].
  - reflexivity.
  - cbn [select_all]. unfold_M. cbn [scene trace objects active]. rewrite IH. reflexivity.
Qed.

(** The assembly, once something is collected. *)
Lemma join_morph_targets_run base expression_models identity_models st :
  expression_models ≠ [] ∨ identity_models ≠ [] →
  let sc :=
    MkScene (select_models identity_models
               (select_models expression_models (objects (scene st))))
      (Some base) in
  join_morph_targets host base expression_models identity_models st =
    match object_join_shapes host sc with
    | OpRaised cls msg sc1 =>
        (Raise (HostError cls msg), MkState sc1 (EvJoinShapes sc :: trace st))
    | OpReturned _ sc1 =>
        match object_delete host sc1 with
        | OpRaised cls msg sc2 =>
            (Raise (HostError cls msg),
             MkState sc2 (EvDelete sc1 :: EvJoinShapes sc :: trace st))
        | OpReturned _ sc2 =>
            (Ret tt, MkState sc2 (EvDelete sc1 :: EvJoinShapes sc :: trace st))
        end
    end.
Proof.
  intros Hne sc.
  assert (join_morph_targets host base expression_models identity_models st =
            (select_all expression_models;; select_all identity_models;;
             set_active base;; sc ← get_scene; emit (EvJoinShapes sc);;
             call_op (object_join_shapes host);;
             sc' ← get_scene; emit (EvDelete sc');;
             call_op (object_delete host);; mret tt) st) as ->.
  { destruct expression_models, identity_models; [by destruct Hne|reflexivity..]. }
  unfold mbind at 1, M_bind at 1. rewrite select_all_scene.
  unfold mbind at 1, M_bind at 1. rewrite select_all_scene.
  unfold_M. cbn [scene trace objects active]. fold sc.
  destruct (object_join_shapes host sc) as [s1 sc1|cls msg sc1]; [|reflexivity].
  cbn [scene trace].
  destruct (object_delete host sc1) as [s2 sc2|cls msg sc2]; reflexivity.
Qed.

Lemma join_morph_targets_empty base st :
  join_morph_targets host base [] [] st
    = (Raise (ValueError "No valid morph targets found in directory"), st).
Proof. reflexivity. Qed.

(** When the assembly returns, something was collected, and the last two
    events are [join_shapes], run with [base] active, and [delete]. *)
Lemma join_morph_targets_ret base expression_models identity_models st u st' :
  join_morph_targets host base expression_models identity_models st = (Ret u, st') →
  (expression_models ≠ [] ∨ identity_models ≠ []) ∧
  ∃ sc sc', trace st' = EvDelete sc' :: EvJoinShapes sc :: trace st ∧
            active sc = Some base.
Proof.
  intros Hrun.
  assert (expression_models ≠ [] ∨ identity_models ≠ []) as Hne.
  { destruct expression_models, identity_models; [discriminate Hrun|auto..]. }
  split; [done|].
  assert (join_morph_targets host base expression_models identity_models st =
            (select_all expression_models;; select_all identity_models;;
             set_active base;; sc ← get_scene; emit (EvJoinShapes sc);;
             call_op (object_join_shapes host);;
             sc' ← get_scene; emit (EvDelete sc');;
             call_op (object_delete host);; mret tt) st) as Heq.
  { destruct expression_models, identity_models; [by destruct Hne|reflexivity..]. }
  rewrite Heq in Hrun. clear Heq.
  unfold mbind at 1, M_bind at 1 in Hrun.
  destruct (select_all_run expression_models st) as (sc1 & Hs1 & Ha1).
  rewrite Hs1 in Hrun. unfold mbind at 1, M_bind at 1 in Hrun.
  destruct (select_all_run identity_models (MkState sc1 (trace st))) as (sc2 & Hs2 & Ha2).
  rewrite Hs2 in Hrun. unfold_M. cbn [scene trace objects active] in Hrun.
  destruct (object_join_shapes host _) as [s3 sc3|]; [|discriminate].
  cbn [scene trace] in Hrun.
  destruct (object_delete host _) as [s4 sc4|]; [|discriminate].
  injection Hrun as <- <-. cbn [trace]. eauto.
Qed.

Lemma join_morph_targets_ok base expression_models identity_models st :
  assembles host →
  expression_models ≠ [] ∨ identity_models ≠ [] →
  ∃ st', join_morph_targets host base expression_models identity_models st
         = (Ret tt, st').
Proof.
  intros Hhost Hne.
  assert (join_morph_targets host base expression_models identity_models st =
            (select_all expression_models;; select_all identity_models;;
             set_active base;; sc ← get_scene; emit (EvJoinShapes sc);;
             call_op (object_join_shapes host);;
             sc' ← get_scene; emit (EvDelete sc');;
             call_op (object_delete host);; mret tt) st) as ->.
  { destruct expression_models, identity_models; [by destruct Hne|reflexivity..]. }
  unfold mbind at 1, M_bind at 1.
  destruct (select_all_run expression_models st) as (sc1 & -> & Ha1).
  unfold mbind at 1, M_bind at 1.
  destruct (select_all_run identity_models (MkState sc1 (trace st))) as (sc2 & -> & Ha2).
  unfold_M. cbn [scene trace objects active].
  destruct (Hhost (MkScene (objects sc2) (Some base))) as [(s3 & sc3 & ->) _].
  cbn [scene trace].
  destruct (Hhost sc3) as [_ (s4 & sc4 & ->)]. eauto.
Qed.

End Stages.

(** ** Failures before the first import *)

Lemma prefix_app (s t : string) : String.prefix s (s +:+ t) = true.
Proof.
  induction s as [|c s IH]; [by destruct t|].
  simpl. destruct (Ascii.ascii_dec c c); [exact IH|congruence].
Qed.

(** C4.  A folder path that is no directory, or a folder without the neutral
    mesh or without the configuration file, makes the loader fail with the
    error the specification calls NotFoundError: a ValueError naming the path
    given, or a FileNotFoundError naming the first missing file.  The scene is
    as it was and [import_obj] was not called. *)
Theorem missing_input_not_found host fuel folderpath st :
  let neutral := path_join folderpath generic_neutral_filename in
  let config := path_join folderpath config_filename in
  path_isdir host folderpath = false ∨
  path_exists host neutral = false ∨
  path_exists host config = false →
  ∃ e st',
    loadICTFaceModel host fuel folderpath st = (Raise e, st') ∧
    e = (if path_isdir host folderpath then
           if path_exists host neutral
           then FileNotFoundError ("Cannot find config file: " +:+ config)
           else FileNotFoundError ("Cannot find neutral mesh: " +:+ neutral)
         else ValueError ("Invalid directory path: " +:+ folderpath)) ∧
    kind_of e = Some Spec.NotFoundError ∧
    scene st' = scene st ∧
    import_calls (trace st') = import_calls (trace st).
Proof.
  intros neutral config Hmissing.
  rewrite loadICTFaceModel_stages, check_inputs_run. cbn zeta. fold neutral config.
  destruct (path_isdir host folderpath).
  - destruct (path_exists host neutral).
    + destruct (path_exists host config);
        [destruct Hmissing as [|[|]]; discriminate|].
      eexists _, _. split_and!; reflexivity.
    + eexists _, _. split_and!; reflexivity.
  - eexists _, _. split_and!; try reflexivity.
    cbn [kind_of]. by rewrite prefix_app.
Qed.

Lemma missing_input_not_found_witness :
  ∃ st',
    loadICTFaceModel
      (Demo.host "/m" ["/m/vertex_indices.json"; "/m/smile.obj"] Demo.smile_frown [] [])
      3 "/m" Demo.empty
    = (Raise (FileNotFoundError "Cannot find neutral mesh: /m/generic_neutral_mesh.obj"),
       st') ∧
    import_calls (trace st') = [].
Proof.
  destruct (missing_input_not_found
              (Demo.host "/m" ["/m/vertex_indices.json"; "/m/smile.obj"]
                 Demo.smile_frown [] [])
              3 "/m" Demo.empty) as (e & st' & Hrun & -> & _ & _ & Hcalls).
  - right. left. reflexivity.
  - exists st'. split; [exact Hrun|exact Hcalls].
Defined.

(** C5.  A configuration file that holds [{}] (or any other value Python
    takes for false), or that is not JSON, makes the reading of the settings
    fail with the ValueError the specification calls ConfigError, the scene
    untouched; and in a folder that has both required files the loader fails
    with that error, without a call of [import_obj]. *)
Theorem bad_manifest_config_error host config :
  match json_load host config with
  | Loaded manifest => truthy manifest = false
  | DecodeError _ => True
  | LoadRaised _ _ => False
  end →
  let msg := match json_load host config with
             | DecodeError _ => "Invalid JSON in config file: " +:+ config
             | _ => "Empty configuration file"
             end in
  kind_of (ValueError msg) = Some Spec.ConfigError ∧
  (∀ st, ∃ st',
     load_settings host config st = (Raise (ValueError msg), st') ∧
     scene st' = scene st ∧
     import_calls (trace st') = import_calls (trace st)) ∧
  (∀ fuel folderpath st,
     config = path_join folderpath config_filename →
     path_isdir host folderpath = true →
     path_exists host (path_join folderpath generic_neutral_filename) = true →
     path_exists host config = true →
     ∃ st',
       loadICTFaceModel host fuel folderpath st = (Raise (ValueError msg), st') ∧
       scene st' = scene st ∧
       import_calls (trace st') = import_calls (trace st)).
Proof.
  intros Hbad msg.
  assert (∀ st, ∃ st',
            load_settings host config st = (Raise (ValueError msg), st') ∧
            scene st' = scene st ∧
            import_calls (trace st') = import_calls (trace st)) as Hstage.
  { intros st. rewrite load_settings_run. cbn zeta. subst msg.
    destruct (json_load host config) as [manifest|text|cls text]; [| |done].
    - rewrite Hbad. eexists. split_and!; reflexivity.
    - eexists. split_and!; reflexivity. }
  split_and!; [|exact Hstage|].
  - subst msg. destruct (json_load host config); [reflexivity| |reflexivity].
    cbn [kind_of]. by rewrite prefix_app.
  - intros fuel folderpath st -> Hdir Hneutral Hconfig.
    rewrite loadICTFaceModel_stages, check_inputs_run. cbn zeta.
    rewrite Hdir, Hneutral, Hconfig.
    destruct (Hstage (MkState (scene (started folderpath st))
                        (EvExists (path_join folderpath config_filename)
                         :: EvExists (path_join folderpath generic_neutral_filename)
                         :: EvIsDir folderpath :: trace (started folderpath st))))
      as (st' & -> & Hscene & Hcalls).
    exists st'. split_and!; [reflexivity|exact Hscene|exact Hcalls].
Qed.

Lemma bad_manifest_config_error_witness :
  ∃ st',
    loadICTFaceModel
      (Demo.host "/m" ["/m/generic_neutral_mesh.obj"; "/m/vertex_indices.json";
                       "/m/identity000.obj"] (Loaded (JObj [])) [] [])
      3 "/m" Demo.empty
    = (Raise (ValueError "Empty configuration file"), st') ∧
    import_calls (trace st') = [].
Proof.
  destruct (bad_manifest_config_error
              (Demo.host "/m" ["/m/generic_neutral_mesh.obj"; "/m/vertex_indices.json";
                               "/m/identity000.obj"] (Loaded (JObj [])) [] [])
              "/m/vertex_indices.json" ltac:(reflexivity)) as (_ & _ & Hloader).
  destruct (Hloader 3 "/m" Demo.empty) as (st' & Hrun & _ & Hcalls);
    [reflexivity..|].
  exists st'. split; [exact Hrun|exact Hcalls].
Defined.

(** ** The check after the loops *)

(** The loader never returns two zero counts. *)
Lemma loadICTFaceModel_not_empty host fuel folderpath st st' :
  loadICTFaceModel host fuel folderpath st ≠ (Ret (0, 0), st').
Proof.
  rewrite loadICTFaceModel_stages.
  destruct (check_inputs host _ _) as [[[np cp]|e|] st1]; [|discriminate..].
  destruct (load_settings host _ _) as [[config|e|] st2]; [|discriminate..].
  destruct (load_generic_neutral host _ _) as [[base|e|] st3]; [|discriminate..].
  destruct (load_expressions host _ _ _) as [[[en em]|e|] st4]; [|discriminate..].
  destruct (load_identities host _ _ _) as [[[inn im]|e|] st5]; [|discriminate..].
  destruct (join_morph_targets host _ _ _ _) as [[u|e|] st6] eqn:Hjoin;
    [|discriminate..].
  intros [= Hem Him _].
  apply join_morph_targets_ret in Hjoin as [[Hne|Hne] _]; apply Hne;
    by apply nil_length_inv.
Qed.

(** C3.  When the neutral mesh was imported and both loops end with nothing
    collected, the loader fails with the ValueError the specification calls
    NoMorphTargetsError, in the state the loops left (the imported neutral
    mesh stays in the scene); and whatever the host, the loader does not
    return (0, 0). *)
Theorem no_morph_targets_error host fuel folderpath st :
  (∀ st', loadICTFaceModel host fuel folderpath st ≠ (Ret (0, 0), st')) ∧
  (∀ neutral config st1 manifest st2 base st3 names st4 identity_names st5,
     check_inputs host folderpath (started folderpath st) = (Ret (neutral, config), st1) →
     load_settings host config st1 = (Ret manifest, st2) →
     load_generic_neutral host neutral st2 = (Ret base, st3) →
     load_expressions host folderpath manifest st3 = (Ret (names, []), st4) →
     load_identities host fuel folderpath st4 = (Ret (identity_names, []), st5) →
     loadICTFaceModel host fuel folderpath st
       = (Raise (ValueError "No valid morph targets found in directory"), st5) ∧
     kind_of (ValueError "No valid morph targets found in directory")
       = Some Spec.NoMorphTargetsError).
Proof.
  split; [intros st'; apply loadICTFaceModel_not_empty|].
  intros neutral config st1 manifest st2 base st3 names st4 identity_names st5
    Hcheck Hsettings Hneutral Hexpressions Hidentities.
  rewrite loadICTFaceModel_stages, Hcheck, Hsettings, Hneutral, Hexpressions,
    Hidentities.
  split; reflexivity.
Qed.

Lemma no_morph_targets_error_witness :
  ∃ st',
    loadICTFaceModel
      (Demo.host "/m" ["/m/generic_neutral_mesh.obj"; "/m/vertex_indices.json"]
         Demo.smile_frown [] [])
      3 "/m" Demo.empty
    = (Raise (ValueError "No valid morph targets found in directory"), st') ∧
    ob_name <$> objects (scene st') = ["ICTFaceModel"].
Proof.
  eexists. split.
  - eapply (proj2 (no_morph_targets_error
                     (Demo.host "/m" ["/m/generic_neutral_mesh.obj";
                                      "/m/vertex_indices.json"] Demo.smile_frown [] [])
                     3 "/m" Demo.empty)); vm_compute; reflexivity.
  - reflexivity.
Defined.

(** ** The demonstration host *)

Lemma demo_deselect_all (objs : list object) :
  List.filter ob_select (Demo.deselect <$> objs) = [].
Proof. induction objs as [|o objs IH]; [done|exact IH]. Qed.

(** A file that is neither [raising] nor [silent] imports as one new object,
    the only one selected afterwards. *)
Lemma demo_import_selected raising silent filepath sc status sc' :
  Demo.obj_import raising silent filepath sc = OpReturned status sc' →
  Demo.mem filepath silent = false →
  selected sc' = [length (objects sc)].
Proof.
  unfold Demo.obj_import. intros Hrun Hsilent.
  destruct (Demo.mem filepath raising); [discriminate|].
  rewrite Hsilent in Hrun. injection Hrun as <- <-.
  unfold selected. cbn [objects].
  by rewrite List.filter_app, demo_deselect_all.
Qed.

Lemma demo_import_succeeds folder files manifest raising silent filepath sc :
  Demo.mem filepath raising = false →
  Demo.mem filepath silent = false →
  import_succeeds (Demo.host folder files manifest raising silent) filepath sc = true.
Proof.
  intros Hraising Hsilent. unfold import_succeeds, obj_import_outcome. cbn.
  destruct (Demo.obj_import raising silent filepath sc) as [status sc'|cls msg sc']
    eqn:Hrun.
  - by rewrite (demo_import_selected _ _ _ _ _ _ Hrun Hsilent).
  - unfold Demo.obj_import in Hrun. rewrite Hraising, Hsilent in Hrun. discriminate.
Qed.

Lemma demo_assembles folder files manifest raising silent :
  assembles (Demo.host folder files manifest raising silent).
Proof. intros sc. split; eexists _, _; reflexivity. Qed.

(** ** Identity names

    Distinct indices give distinct names, so distinct files. *)

Section Names.
Local Arguments String.append !_ _ / : simpl nomatch.

Lemma string_app_assoc (s t u : string) : (s +:+ t) +:+ u = s +:+ (t +:+ u).
Proof. induction s as [|c s IH]; [done|]. cbn. by rewrite IH. Qed.

Lemma string_app_length (s t : string) :
  String.length (s +:+ t) = String.length s + String.length t.
Proof. induction s as [|c s IH]; [done|]. cbn. by rewrite IH. Qed.

Lemma string_app_inj_r (t s s' : string) : s +:+ t = s' +:+ t → s = s'.
Proof.
  revert s'. induction s as [|c s IH]; intros [|c' s'] Heq.
  - done.
  - apply (f_equal String.length) in Heq. cbn in Heq.
    rewrite string_app_length in Heq. lia.
  - apply (f_equal String.length) in Heq. cbn in Heq.
    rewrite string_app_length in Heq. lia.
  - injection Heq as -> Heq. f_equal. by apply IH.
Qed.

(** A positive number is printed with a first digit other than 0. *)
Lemma pretty_N_go_head (x : N) (s : string) :
  (0 < x)%N → ∃ c d, pretty_N_go x s = String c d ∧ c ≠ "0"%char.
Proof.
  revert s. induction (N.lt_wf_0 x) as [x _ IH]. intros s Hx.
  rewrite pretty_N_go_step by done.
  destruct (decide (x < 10)%N) as [Hsmall|Hlarge].
  - rewrite N.div_small, N.mod_small, pretty_N_go_0 by done.
    eexists _, _. split; [done|].
    intros Hzero. apply (pretty_N_char_inj x 0) in Hzero; lia.
  - apply IH; [apply N.div_lt; lia|apply N.div_str_pos; lia].
Qed.

Lemma pretty_nat_head (n : nat) :
  n ≠ 0 → ∃ c d, pretty n = String c d ∧ c ≠ "0"%char.
Proof.
  intros Hn. unfold pretty, pretty_nat, pretty, pretty_N.
  destruct (decide (N.of_nat n = 0%N)); [lia|].
  apply pretty_N_go_head. lia.
Qed.

Lemma zeros_app_ne (a b : nat) (c : ascii) (d : string) :
  c ≠ "0"%char → zeros a +:+ String c d ≠ zeros b.
Proof.
  intros Hc. revert b. induction a as [|a IH]; intros [|b]; cbn; try discriminate.
  - intros [= -> _]. done.
  - intros [= Heq]. by apply IH in Heq.
Qed.

Lemma zeros_app_inj (a b : nat) (c c' : ascii) (d d' : string) :
  c ≠ "0"%char → c' ≠ "0"%char →
  zeros a +:+ String c d = zeros b +:+ String c' d' →
  String c d = String c' d'.
Proof.
  intros Hc Hc'. revert b. induction a as [|a IH]; intros [|b]; cbn.
  - done.
  - intros [= -> _]. done.
  - intros [= <- _]. done.
  - intros [= Heq]. by apply IH in Heq.
Qed.

Lemma format_03d_inj (n m : nat) : format_03d n = format_03d m → n = m.
Proof.
  assert (∀ i, i ≠ 0 → format_03d i ≠ format_03d 0) as Hzero.
  { intros i Hi. destruct (pretty_nat_head i Hi) as (c & d & Hp & Hc).
    unfold format_03d at 1. cbn zeta. rewrite Hp.
    change (format_03d 0) with (zeros 3). by apply zeros_app_ne. }
  destruct (decide (n = 0)) as [->|Hn], (decide (m = 0)) as [->|Hm].
  - done.
  - intros Heq. symmetry in Heq. by apply Hzero in Heq.
  - intros Heq. by apply Hzero in Heq.
  - destruct (pretty_nat_head n Hn) as (c & d & Hp & Hc).
    destruct (pretty_nat_head m Hm) as (c' & d' & Hq & Hc').
    unfold format_03d. cbn zeta. rewrite Hp, Hq. intros Heq.
    apply zeros_app_inj in Heq; [|done..].
    rewrite <- Hp, <- Hq in Heq. by apply (inj pretty) in Heq.
Qed.

Lemma identity_filepath_inj (folderpath : string) (n m : nat) :
  identity_filepath folderpath n = identity_filepath folderpath m → n = m.
Proof.
  unfold identity_filepath, path_join, identity_name.
  change (startswith_sep (("identity" +:+ ?f) +:+ ".obj")) with false.
  cbn iota. intros Heq. apply format_03d_inj.
  destruct (String.eqb folderpath "" || endswith_sep folderpath).
  - apply (inj (String.app folderpath)) in Heq.
    apply string_app_inj_r in Heq. by apply (inj (String.app "identity")) in Heq.
  - apply (inj (String.app folderpath)), (inj (String.app "/")) in Heq.
    apply string_app_inj_r in Heq. by apply (inj (String.app "identity")) in Heq.
Qed.

End Names.

(** ** Identity discovery *)

(** C1, as stated, fails.  The folder has identity000.obj and no
    identity001.obj, so the claim promises one identity; the import of
    identity000.obj returns with nothing selected, the loop skips the index
    (line 146) and the loader returns no identity. *)
Lemma identity_count_counterexample :
  let host :=
    Demo.host "/m" ["/m/generic_neutral_mesh.obj"; "/m/vertex_indices.json";
                    "/m/smile.obj"; "/m/identity000.obj"]
      Demo.smile_frown [] ["/m/identity000.obj"] in
  path_exists host (identity_filepath "/m" 0) = true ∧
  path_exists host (identity_filepath "/m" 1) = false ∧
  (loadICTFaceModel host 9 "/m" Demo.empty).1 = Ret (1, 0) ∧
  ¬ (∃ expression_count st',
       loadICTFaceModel host 9 "/m" Demo.empty = (Ret (expression_count, 1), st')).
Proof.
  cbn zeta. split_and!; [reflexivity|reflexivity|vm_compute; reflexivity|].
  intros (expression_count & st' & Hrun). vm_compute in Hrun. discriminate Hrun.
Qed.

(** C1, amended.  Identity files at the indices [0 .. k-1], each of which
    imports, and none at [k]: with fuel for [k+1] rounds the identity loop
    returns the [k]
    names identity000 .. and [k] objects, having asked the file system for
    the files of the indices [0 .. k], none of which is the file of an index
    beyond [k]; and whenever the loader returns, its identity count is [k]. *)
Theorem identity_discovery_contiguous host folderpath k :
  (∀ i, i < k → path_exists host (identity_filepath folderpath i) = true) →
  path_exists host (identity_filepath folderpath k) = false →
  (∀ i sc, i < k → import_succeeds host (identity_filepath folderpath i) sc = true) →
  (∀ fuel st, k < fuel →
     ∃ models st' asked,
       load_identities host fuel folderpath st
         = (Ret (identity_name <$> seq 0 k, models), st') ∧
       length models = k ∧
       probes (trace st') = asked ++ probes (trace st) ∧
       asked = reverse (identity_filepath folderpath <$> seq 0 (S k)) ∧
       (∀ j, k < j → identity_filepath folderpath j ∉ asked)) ∧
  (∀ fuel st expression_count identity_count st',
     loadICTFaceModel host fuel folderpath st
       = (Ret (expression_count, identity_count), st') →
     identity_count = k).
Proof.
  intros Hpresent Habsent Himports. split.
  - intros fuel st Hfuel.
    destruct (identities_loop_contiguous host folderpath k Hpresent Habsent Himports
                fuel 0 [] [] st ltac:(lia)) as [_ Hret].
    rewrite Nat.sub_0_r in Hret.
    destruct (Hret Hfuel) as (models & st' & Hrun & Hlen & Hprobes).
    exists models, st', (reverse (identity_filepath folderpath <$> seq 0 (S k))).
    split_and!; [done..|].
    intros j Hj (i & Heq & Hi)%elem_of_reverse%list_elem_of_fmap.
    apply identity_filepath_inj in Heq as ->. apply elem_of_seq in Hi. lia.
  - intros fuel st expression_count identity_count st'.
    rewrite loadICTFaceModel_stages.
    destruct (check_inputs host _ _) as [[[np cp]|e|] st1]; [|discriminate..].
    destruct (load_settings host _ _) as [[config|e|] st2]; [|discriminate..].
    destruct (load_generic_neutral host _ _) as [[base|e|] st3]; [|discriminate..].
    destruct (load_expressions host _ _ _) as [[[en em]|e|] st4]; [|discriminate..].
    destruct (load_identities host _ _ _) as [[[inn im]|e|] st5] eqn:Hloop;
      [|discriminate..].
    destruct (join_morph_targets host _ _ _ _) as [[u|e|] st6]; [|discriminate..].
    intros [= _ <- _].
    destruct (identities_loop_contiguous host folderpath k Hpresent Habsent Himports
                fuel 0 [] [] st4 ltac:(lia)) as [Hout Hret].
    unfold load_identities in Hloop. rewrite Nat.sub_0_r in Hout, Hret.
    destruct (decide (fuel ≤ k)%nat) as [Hle|Hgt].
    + destruct (Hout Hle) as (st'' & Hrun). congruence.
    + destruct Hret as (ms & st'' & Hrun & Hlen & _); [lia|].
      rewrite Hrun in Hloop. by injection Hloop as _ <- _.
Qed.

(** Files at 0, 1 and 3 and none at 2: two identities, and the file of index
    3 is not asked for. *)
Lemma identity_discovery_contiguous_witness :
  ∃ models st',
    load_identities
      (Demo.host "/m" ["/m/generic_neutral_mesh.obj"; "/m/vertex_indices.json";
                       "/m/identity000.obj"; "/m/identity001.obj"; "/m/identity003.obj"]
         Demo.smile_frown [] [])
      9 "/m" Demo.empty
    = (Ret (["identity000"; "identity001"], models), st') ∧
    length models = 2 ∧
    probes (trace st') = ["/m/identity002.obj"; "/m/identity001.obj"; "/m/identity000.obj"].
Proof.
  destruct (proj1 (identity_discovery_contiguous
                     (Demo.host "/m" ["/m/generic_neutral_mesh.obj";
                                      "/m/vertex_indices.json"; "/m/identity000.obj";
                                      "/m/identity001.obj"; "/m/identity003.obj"]
                        Demo.smile_frown [] [])
                     "/m" 2
                     ltac:(intros [|[|i]] Hi; [reflexivity|reflexivity|lia])
                     ltac:(reflexivity)
                     ltac:(intros i sc Hi; apply demo_import_succeeds; reflexivity))
             9 Demo.empty ltac:(lia))
    as (models & st' & asked & Hrun & Hlen & Hprobes & -> & _).
  exists models, st'. split_and!; [exact Hrun|exact Hlen|exact Hprobes].
Defined.

(** ** The expression loop *)

(** What the first two stages establish when they return. *)
Lemma settings_loaded host folderpath st neutral config st1 manifest st2 :
  check_inputs host folderpath st = (Ret (neutral, config), st1) →
  load_settings host config st1 = (Ret manifest, st2) →
  neutral = path_join folderpath generic_neutral_filename ∧
  config = path_join folderpath config_filename ∧
  json_load host config = Loaded manifest ∧
  truthy manifest = true ∧
  scene st2 = scene st ∧
  import_calls (trace st2) = import_calls (trace st) ∧
  probes (trace st2) = config :: neutral :: probes (trace st).
Proof.
  rewrite check_inputs_run. cbn zeta.
  destruct (path_isdir host folderpath); [|discriminate].
  destruct (path_exists host (path_join folderpath generic_neutral_filename));
    [|discriminate].
  destruct (path_exists host (path_join folderpath config_filename)); [|discriminate].
  intros [= <- <- <-]. rewrite load_settings_run. cbn zeta.
  destruct (json_load host _) as [j|msg|cls msg]; [|discriminate..].
  destruct (truthy j) eqn:Htruthy; [|discriminate].
  intros [= <- <-]. done.
Qed.

(** The loader from the import of the neutral mesh on, once the folder and
    the two files are found and the settings are read. *)
Lemma loadICTFaceModel_settled host fuel folderpath st manifest :
  path_isdir host folderpath = true →
  path_exists host (path_join folderpath generic_neutral_filename) = true →
  path_exists host (path_join folderpath config_filename) = true →
  json_load host (path_join folderpath config_filename) = Loaded manifest →
  truthy manifest = true →
  loadICTFaceModel host fuel folderpath st =
    match load_generic_neutral host (path_join folderpath generic_neutral_filename)
            (settled folderpath st) with
    | (Ret face_model_neutral_object, st3) =>
      match load_expressions host folderpath manifest st3 with
      | (Ret (_, expression_models), st4) =>
        match load_identities host fuel folderpath st4 with
        | (Ret (_, identity_models), st5) =>
          match join_morph_targets host face_model_neutral_object
                  expression_models identity_models st5 with
          | (Ret _, st6) =>
              (Ret (length expression_models, length identity_models), st6)
          | r => passed r
          end
        | r => passed r
        end
      | r => passed r
      end
    | r => passed r
    end.
Proof.
  intros Hdir Hneutral Hconfig Hload Htruthy.
  rewrite loadICTFaceModel_stages, check_inputs_run. cbn zeta.
  rewrite Hdir, Hneutral, Hconfig, load_settings_run, Hload, Htruthy. reflexivity.
Qed.

Lemma load_expressions_run host folderpath manifest declared items st :
  subscript manifest "expressions" = inr declared →
  iterate declared = inr items →
  load_expressions host folderpath manifest st
    = expressions_loop host folderpath items [] [] st.
Proof.
  intros Hdeclared Hitems. unfold load_expressions. rewrite Hdeclared.
  unfold_M. cbn beta iota. by rewrite Hitems.
Qed.

(** C2.  For a manifest whose [expressions] is a non-empty list of names, on a
    host where a file either imports or does not whatever the scene, the
    expression loop returns, in manifest order, the declared names whose file
    exists and imports, each with the object the import of its file selected;
    a missing file raises nothing.  The expression count of the loader is the
    number of these names: whenever the loader returns; and it does return,
    with that count, once the folder and the two files are there, the neutral
    mesh imports, some identity file is missing, the fuel reaches it and the
    assembly goes through, unless nothing at all was collected, which makes it
    raise the ValueError of the empty result. *)
Theorem expressions_found_counted host folderpath manifest names (good : string → bool) :
  names ≠ [] →
  json_load host (path_join folderpath config_filename) = Loaded manifest →
  subscript manifest "expressions" = inr (JArr (JStr <$> names)) →
  (∀ name sc, name ∈ names →
     path_exists host (expression_filepath folderpath name) = true →
     import_succeeds host (expression_filepath folderpath name) sc = good name) →
  let kept name := path_exists host (expression_filepath folderpath name) && good name in
  (∀ st, ∃ models st',
     load_expressions host folderpath manifest st
       = (Ret (List.filter kept names, models), st') ∧
     length models = length (List.filter kept names) ∧
     Forall2 (fun name h => imported_from host (expression_filepath folderpath name) h)
       (List.filter kept names) models) ∧
  (∀ fuel st expression_count identity_count st',
     loadICTFaceModel host fuel folderpath st
       = (Ret (expression_count, identity_count), st') →
     expression_count = length (List.filter kept names)) ∧
  (∀ fuel k st,
     path_isdir host folderpath = true →
     path_exists host (path_join folderpath generic_neutral_filename) = true →
     path_exists host (path_join folderpath config_filename) = true →
     (∀ sc, import_succeeds host (path_join folderpath generic_neutral_filename) sc = true) →
     path_exists host (identity_filepath folderpath k) = false →
     k < fuel →
     assembles host →
     ∃ st',
       (∃ identity_count,
          loadICTFaceModel host fuel folderpath st
            = (Ret (length (List.filter kept names), identity_count), st')) ∨
       (List.filter kept names = [] ∧
        loadICTFaceModel host fuel folderpath st
          = (Raise (ValueError "No valid morph targets found in directory"), st'))).
Proof.
  intros _ Hload Hdeclared Hgood kept.
  assert (∀ st, ∃ models st',
            load_expressions host folderpath manifest st
              = (Ret (List.filter kept names, models), st') ∧
            length models = length (List.filter kept names) ∧
            Forall2 (fun name h =>
                       imported_from host (expression_filepath folderpath name) h)
              (List.filter kept names) models) as Hloop.
  { intros st. rewrite (load_expressions_run _ _ _ _ _ _ Hdeclared eq_refl).
    destruct (expressions_loop_collects host folderpath good names Hgood [] [] st)
      as (models & st' & Hrun & Hfrom).
    exists models, st'. split_and!; [done| |done].
    symmetry. by eapply Forall2_length. }
  split_and!; [exact Hloop| |].
  - intros fuel st expression_count identity_count st'.
    rewrite loadICTFaceModel_stages.
    destruct (check_inputs host _ _) as [[[np cp]|e|] st1] eqn:Hcheck; [|discriminate..].
    destruct (load_settings host _ _) as [[config|e|] st2] eqn:Hsettings;
      [|discriminate..].
    destruct (settings_loaded _ _ _ _ _ _ _ _ Hcheck Hsettings)
      as (_ & -> & Hconfig & _).
    assert (config = manifest) as -> by congruence.
    destruct (load_generic_neutral host _ _) as [[base|e|] st3]; [|discriminate..].
    destruct (Hloop st3) as (models & st4 & -> & Hlen & _).
    destruct (load_identities host _ _ _) as [[[inn im]|e|] st5]; [|discriminate..].
    destruct (join_morph_targets host _ _ _ _) as [[u|e|] st6]; [|discriminate..].
    by intros [= <- _ _].
  - intros fuel k st Hdir Hneutral Hconfig Hbase Habsent Hfuel Hhost.
    assert (truthy manifest = true) as Htruthy.
    { destruct manifest as [| | | | | |members]; try discriminate Hdeclared.
      by destruct members. }
    assert (∃ base st3,
              load_generic_neutral host (path_join folderpath generic_neutral_filename)
                (settled folderpath st) = (Ret base, st3)) as (base & st3 & Hneutral').
    { rewrite load_generic_neutral_run. cbn zeta.
      pose proof (Hbase (scene (settled folderpath st))) as Himp.
      unfold import_succeeds in Himp.
      destruct (obj_import_outcome host _ _) as [[status sc|cls msg sc]|];
        [|discriminate..].
      destruct (selected sc) as [|base others]; [discriminate|]. eauto. }
    destruct (Hloop st3) as (models & st4 & Hexpressions & Hlen & _).
    destruct (identities_loop_halts host folderpath k Habsent fuel 0 [] [] st4
                ltac:(lia) ltac:(lia)) as ([inn im] & st5 & Hidentities).
    rewrite (loadICTFaceModel_settled _ _ _ _ _ Hdir Hneutral Hconfig Hload Htruthy),
      Hneutral', Hexpressions.
    unfold load_identities. rewrite Hidentities.
    destruct (decide (models = [] ∧ im = [])) as [[-> ->]|Hne].
    + rewrite join_morph_targets_empty. exists st5. right.
      split; [|reflexivity]. symmetry in Hlen. by apply nil_length_inv in Hlen.
    + destruct (join_morph_targets_ok host base models im st5 Hhost) as (st6 & ->).
      { destruct models, im; [by destruct Hne|auto..]. }
      exists st6. left. exists (length im). by rewrite Hlen.
Qed.

(** Three names declared: smile imports, the import of frown raises, the
    file of grin is missing; no identity file.  The loader returns (1, 0). *)
Lemma expressions_found_counted_witness :
  ∃ st',
    loadICTFaceModel
      (Demo.host "/m" ["/m/generic_neutral_mesh.obj"; "/m/vertex_indices.json";
                       "/m/frown.obj"; "/m/smile.obj"]
         (Loaded (JObj [("expressions", JArr [JStr "frown"; JStr "grin"; JStr "smile"])]))
         ["/m/frown.obj"] [])
      9 "/m" Demo.empty
    = (Ret (1, 0), st').
Proof.
  destruct (proj2 (proj2 (expressions_found_counted
                  (Demo.host "/m" ["/m/generic_neutral_mesh.obj"; "/m/vertex_indices.json";
                                   "/m/frown.obj"; "/m/smile.obj"]
                     (Loaded (JObj [("expressions",
                                     JArr [JStr "frown"; JStr "grin"; JStr "smile"])]))
                     ["/m/frown.obj"] [])
                  "/m" (JObj [("expressions", JArr [JStr "frown"; JStr "grin"; JStr "smile"])])
                  ["frown"; "grin"; "smile"]
                  (fun name => String.eqb name "smile")
                  ltac:(discriminate) ltac:(reflexivity) ltac:(reflexivity)
                  ltac:(intros name sc Hin Hfound;
                        apply elem_of_cons in Hin as [->|Hin];
                          [reflexivity|];
                        apply elem_of_cons in Hin as [->|Hin];
                          [discriminate Hfound|];
                        apply elem_of_cons in Hin as [->|Hin];
                          [apply demo_import_succeeds; reflexivity|];
                        by apply elem_of_nil in Hin)))
              9 0 Demo.empty
              ltac:(reflexivity) ltac:(reflexivity) ltac:(reflexivity)
              ltac:(intros sc; apply demo_import_succeeds; reflexivity)
              ltac:(reflexivity) ltac:(lia) ltac:(apply demo_assembles))
    as (st' & [(identity_count & Hrun)|(Hnone & _)]).
  - exists st'. rewrite Hrun. f_equal. f_equal.
    pose proof (f_equal fst Hrun) as Hcount. vm_compute in Hcount.
    by injection Hcount as <-.
  - discriminate Hnone.
Defined.

(** C9.  Whatever the host does, the names the expression loop returns are,
    in order, among the items of the manifest's [expressions], one object per
    name; so the expression count of the loader is at most the number of
    items. *)
Theorem collected_names_subsequence host folderpath :
  (∀ manifest st names models st',
     load_expressions host folderpath manifest st = (Ret (names, models), st') →
     ∃ declared items,
       subscript manifest "expressions" = inr declared ∧
       iterate declared = inr items ∧
       (JStr <$> names) `sublist_of` items ∧
       length models = length names ∧
       (length models ≤ length items)%nat) ∧
  (∀ fuel st expression_count identity_count st',
     loadICTFaceModel host fuel folderpath st
       = (Ret (expression_count, identity_count), st') →
     ∃ manifest declared items,
       json_load host (path_join folderpath config_filename) = Loaded manifest ∧
       subscript manifest "expressions" = inr declared ∧
       iterate declared = inr items ∧
       (expression_count ≤ length items)%nat).
Proof.
  assert (∀ manifest st names models st',
     load_expressions host folderpath manifest st = (Ret (names, models), st') →
     ∃ declared items,
       subscript manifest "expressions" = inr declared ∧
       iterate declared = inr items ∧
       (JStr <$> names) `sublist_of` items ∧
       length models = length names ∧
       (length models ≤ length items)%nat) as Hloop.
  { intros manifest st names models st'. unfold load_expressions.
    destruct (subscript manifest "expressions") as [e|declared]; [discriminate|].
    unfold_M. cbn beta iota.
    destruct (iterate declared) as [e|items] eqn:Hitems; [discriminate|].
    intros Hrun. apply expressions_loop_sublist in Hrun
      as (ns & ms & -> & -> & Hlen & Hsub).
    exists declared, items. cbn [app].
    apply sublist_length in Hsub as Hle. rewrite length_fmap in Hle.
    split_and!; [done..|lia]. }
  split; [exact Hloop|].
  intros fuel st expression_count identity_count st'.
  rewrite loadICTFaceModel_stages.
  destruct (check_inputs host _ _) as [[[np cp]|e|] st1] eqn:Hcheck; [|discriminate..].
  destruct (load_settings host _ _) as [[config|e|] st2] eqn:Hsettings;
    [|discriminate..].
  destruct (settings_loaded _ _ _ _ _ _ _ _ Hcheck Hsettings)
    as (_ & -> & Hconfig & _).
  destruct (load_generic_neutral host _ _) as [[base|e|] st3]; [|discriminate..].
  destruct (load_expressions host _ _ _) as [[[en em]|e|] st4] eqn:Hexpr;
    [|discriminate..].
  destruct (load_identities host _ _ _) as [[[inn im]|e|] st5]; [|discriminate..].
  destruct (join_morph_targets host _ _ _ _) as [[u|e|] st6]; [|discriminate..].
  intros [= <- _ _].
  apply Hloop in Hexpr as (declared & items & Hd & Hi & _ & _ & Hle).
  eauto 10.
Qed.

Lemma collected_names_subsequence_witness :
  (JStr <$> ["smile"]) `sublist_of` [JStr "smile"; JStr "frown"].
Proof.
  edestruct (proj1 (collected_names_subsequence
                      (Demo.host "/m" ["/m/generic_neutral_mesh.obj";
                                       "/m/vertex_indices.json"; "/m/smile.obj";
                                       "/m/identity000.obj"] Demo.smile_frown [] [])
                      "/m")
               (JObj [("expressions", JArr [JStr "smile"; JStr "frown"])]) Demo.empty
               ["smile"])
    as (declared & items & Hdeclared & Hitems & Hsub & _).
  - vm_compute. reflexivity.
  - injection Hdeclared as <-. injection Hitems as <-. exact Hsub.
Defined.

(** ** Termination *)

Lemma first_false (p : nat → bool) (bound : nat) :
  p bound = false →
  ∃ k, (k ≤ bound)%nat ∧ p k = false ∧ ∀ i, i < k → p i = true.
Proof.
  assert (∀ n, (∀ i, i < n → p i = true) ∨
               (∃ k, k < n ∧ p k = false ∧ ∀ i, i < k → p i = true)) as Hscan.
  { induction n as [|n [Hall|(k & Hk & Hpk & Hbelow)]].
    - left. intros i Hi. lia.
    - destruct (p n) eqn:Hpn.
      + left. intros i Hi. destruct (decide (i = n)) as [->|]; [done|apply Hall; lia].
      + right. exists n. split_and!; [lia|done..].
    - right. exists k. split_and!; [lia|done..]. }
  intros Hbound. destruct (Hscan (S bound)) as [Hall|(k & Hk & Hpk & Hbelow)].
  - rewrite Hall in Hbound by lia. discriminate.
  - exists k. split_and!; [lia|done..].
Qed.

Lemma expressions_loop_no_timeout host folderpath items names models st st' :
  expressions_loop host folderpath items names models st ≠ (Timeout, st').
Proof.
  revert names models st. induction items as [|item items IH]; intros names models st.
  - discriminate.
  - destruct item as [| | | |name| |]; try discriminate.
    rewrite expressions_loop_cons. cbn zeta.
    destruct (path_exists host _); [|apply IH].
    destruct (import_expression_returns host name (expression_filepath folderpath name)
                (MkState (scene st)
                   (EvExists (expression_filepath folderpath name) :: trace st)))
      as ([h|] & st1 & ->); apply IH.
Qed.

Lemma load_expressions_no_timeout host folderpath manifest st st' :
  load_expressions host folderpath manifest st ≠ (Timeout, st').
Proof.
  unfold load_expressions.
  destruct (subscript manifest "expressions") as [e|declared]; [discriminate|].
  unfold_M. cbn beta iota.
  destruct (iterate declared) as [e|items]; [discriminate|].
  destruct (expressions_loop host folderpath items [] [] st) as [[r|e|] st1] eqn:Hloop;
    [discriminate..|].
  by apply expressions_loop_no_timeout in Hloop.
Qed.

Lemma join_morph_targets_no_timeout host base expression_models identity_models st st' :
  join_morph_targets host base expression_models identity_models st ≠ (Timeout, st').
Proof.
  assert (∀ st,
    (select_all expression_models;; select_all identity_models;;
     set_active base;; sc ← get_scene; emit (EvJoinShapes sc);;
     call_op (object_join_shapes host);;
     sc' ← get_scene; emit (EvDelete sc');;
     call_op (object_delete host);; mret tt) st ≠ (Timeout, st')) as Hbody.
  { clear st. intros st. unfold mbind at 1, M_bind at 1.
    destruct (select_all_run expression_models st) as (sc1 & -> & _).
    unfold mbind at 1, M_bind at 1.
    destruct (select_all_run identity_models (MkState sc1 (trace st))) as (sc2 & -> & _).
    unfold_M. cbn [scene trace objects active].
    destruct (object_join_shapes host _) as [s3 sc3|]; [|discriminate].
    cbn [scene trace].
    destruct (object_delete host _) as [s4 sc4|]; discriminate. }
  destruct expression_models, identity_models; [discriminate|apply Hbody..].
Qed.

(** C10.  In a folder with finitely many identity files (all their indices
    are in the list [present]) there is a first index [k] without a file, and
    the identity loop returns as soon as it has fuel for [k+1] rounds, the same
    result whatever the fuel beyond; the loader then never runs out of fuel. *)
Theorem identity_discovery_terminates host folderpath (present : list nat) :
  (∀ n, path_exists host (identity_filepath folderpath n) = true → n ∈ present) →
  ∃ k,
    path_exists host (identity_filepath folderpath k) = false ∧
    (∀ i, i < k → path_exists host (identity_filepath folderpath i) = true) ∧
    ∀ fuel st, k < fuel →
      (∃ r st', load_identities host fuel folderpath st = (Ret r, st')) ∧
      load_identities host fuel folderpath st = load_identities host (S k) folderpath st ∧
      (∀ st', loadICTFaceModel host fuel folderpath st ≠ (Timeout, st')).
Proof.
  intros Hfinite.
  destruct (first_false (λ n, path_exists host (identity_filepath folderpath n))
              (S (max_list present))) as (k & _ & Habsent & Hbelow).
  { destruct (path_exists host _) eqn:Hfound; [|done].
    apply Hfinite, max_list_elem_of_le in Hfound. lia. }
  exists k. split_and!; [done..|]. intros fuel st Hfuel.
  assert (∀ st, ∃ r st', load_identities host (S k) folderpath st = (Ret r, st')
                        ∧ load_identities host fuel folderpath st = (Ret r, st'))
    as Hloop.
  { intros st0.
    destruct (identities_loop_halts host folderpath k Habsent (S k) 0 [] [] st0)
      as (r & st' & Hrun); [lia..|].
    exists r, st'. split; [exact Hrun|].
    apply (identities_loop_fuel_mono host folderpath (S k)); [exact Hrun|lia]. }
  split_and!.
  - destruct (Hloop st) as (r & st' & _ & ->). eauto.
  - destruct (Hloop st) as (r & st' & -> & ->). done.
  - intros st'. rewrite loadICTFaceModel_stages, check_inputs_run. cbn zeta.
    destruct (path_isdir host folderpath); [|discriminate].
    destruct (path_exists host (path_join folderpath generic_neutral_filename));
      [|discriminate].
    destruct (path_exists host (path_join folderpath config_filename)); [|discriminate].
    rewrite load_settings_run. cbn zeta.
    destruct (json_load host _) as [manifest|msg|cls msg]; [|discriminate..].
    destruct (truthy manifest); [|discriminate].
    rewrite load_generic_neutral_run. cbn zeta. cbn [scene trace].
    set (st2 := MkState _ _).
    assert (∀ base st3,
      match load_expressions host folderpath manifest st3 with
      | (Ret (_, expression_models), st4) =>
          match load_identities host fuel folderpath st4 with
          | (Ret (_, identity_models), st5) =>
              match join_morph_targets host base expression_models identity_models st5
              with
              | (Ret _, st6) =>
                  (Ret (length expression_models, length identity_models), st6)
              | r => passed r
              end
          | r => passed r
          end
      | r => passed r
      end ≠ (Timeout, st')) as Hrest.
    { intros base st3.
      destruct (load_expressions host folderpath manifest st3) as [[[en em]|e|] st4]
        eqn:Hexpr; [|discriminate|by apply load_expressions_no_timeout in Hexpr].
      destruct (Hloop st4) as ([inn im] & st5 & _ & ->).
      destruct (join_morph_targets host base em im st5) as [[u|e|] st6] eqn:Hjoin;
        [discriminate..|by apply join_morph_targets_no_timeout in Hjoin]. }
    destruct (obj_import_outcome host _ _) as [[status sc|cls msg sc]|];
      [|discriminate..].
    destruct (selected sc) as [|base others]; [discriminate|]. apply Hrest.
Qed.

(** Two identity files; the import of the first selects nothing and the
    loop goes on to the second. *)
Lemma identity_discovery_terminates_witness :
  ∃ k,
    (∀ fuel, k < fuel →
       ∀ st',
         loadICTFaceModel
           (Demo.host "/m" ["/m/generic_neutral_mesh.obj"; "/m/vertex_indices.json";
                            "/m/identity000.obj"; "/m/identity001.obj"]
              Demo.smile_frown [] ["/m/identity000.obj"])
           fuel "/m" Demo.empty ≠ (Timeout, st')).
Proof.
  destruct (identity_discovery_terminates
              (Demo.host "/m" ["/m/generic_neutral_mesh.obj"; "/m/vertex_indices.json";
                               "/m/identity000.obj"; "/m/identity001.obj"]
                 Demo.smile_frown [] ["/m/identity000.obj"])
              "/m" [0; 1]) as (k & _ & _ & Hruns).
  - intros n. cbn [path_exists Demo.host]. unfold Demo.mem. cbn [existsb]. intros Hfound.
    repeat (apply orb_prop in Hfound as [Hfound|Hfound]); try discriminate Hfound.
    + apply String.eqb_eq in Hfound.
      apply (identity_filepath_inj "/m" n 0) in Hfound as ->. apply list_elem_of_here.
    + apply String.eqb_eq in Hfound.
      apply (identity_filepath_inj "/m" n 1) in Hfound as ->.
      apply list_elem_of_further, list_elem_of_here.
  - exists k. intros fuel Hfuel. apply (Hruns fuel Demo.empty Hfuel).
Defined.

(** ** Exceptions inside the loops *)

(** Once the checks, the settings and the neutral mesh are through, and the
    loops have returned with something collected, the loader returns the two
    counts, on a host whose [join_shapes] and [delete] return. *)
Lemma loadICTFaceModel_returns host fuel folderpath st
    neutral config st1 manifest st2 base st3 names models st4
    identity_names identity_models st5 :
  check_inputs host folderpath (started folderpath st) = (Ret (neutral, config), st1) →
  load_settings host config st1 = (Ret manifest, st2) →
  load_generic_neutral host neutral st2 = (Ret base, st3) →
  load_expressions host folderpath manifest st3 = (Ret (names, models), st4) →
  load_identities host fuel folderpath st4 = (Ret (identity_names, identity_models), st5) →
  assembles host →
  models ≠ [] ∨ identity_models ≠ [] →
  ∃ st', loadICTFaceModel host fuel folderpath st
         = (Ret (length models, length identity_models), st').
Proof.
  intros Hcheck Hsettings Hneutral Hexpressions Hidentities Hhost Hne.
  rewrite loadICTFaceModel_stages, Hcheck, Hsettings, Hneutral, Hexpressions,
    Hidentities.
  destruct (join_morph_targets_ok host base models identity_models st5 Hhost Hne)
    as (st' & ->).
  eauto.
Qed.

(** C6.  An exception raised by [import_obj] is handled differently in the
    two loops.  In the expression loop it is caught and logged, the name is
    left out and the loop goes on with the next item.  In the identity loop it
    is caught and logged and the loop ends there, with what it had collected.
    Neither loop raises (the expression loop over names, the identity loop
    always), and the loader returns the counts when the loops have collected
    at least one object and the assembly goes through. *)
Theorem import_exception_policies host folderpath :
  (∀ name rest names models st e st1,
     let filepath := expression_filepath folderpath name in
     path_exists host filepath = true →
     import_obj host filepath
       (MkState (scene st)
          (EvLog INFO ("Reading expression morph target: " +:+ name)
           :: EvExists filepath :: trace st)) = (Raise e, st1) →
     expressions_loop host folderpath (JStr name :: rest) names models st
       = expressions_loop host folderpath rest names models
           (MkState (scene st1)
              (EvLog ERROR ("Error importing expression " +:+ name +:+ ": " +:+ str_exn e)
               :: trace st1))) ∧
  (∀ fuel n names models st e st1,
     let filepath := identity_filepath folderpath n in
     path_exists host filepath = true →
     import_obj host filepath
       (MkState (scene st)
          (EvLog INFO ("Reading identity morph target: " +:+ identity_name n)
           :: EvExists filepath :: trace st)) = (Raise e, st1) →
     identities_loop host (S fuel) folderpath n names models st
       = (Ret (names, models),
          MkState (scene st1)
            (EvLog ERROR ("Error loading identity morph target " +:+ identity_name n
                          +:+ ": " +:+ str_exn e)
             :: trace st1))) ∧
  (∀ declared names models st,
     ∃ r st', expressions_loop host folderpath (JStr <$> declared) names models st
              = (Ret r, st')) ∧
  (∀ fuel n names models st e st',
     identities_loop host fuel folderpath n names models st ≠ (Raise e, st')) ∧
  (∀ fuel st neutral config st1 manifest st2 base st3 names models st4
      identity_names identity_models st5,
     check_inputs host folderpath (started folderpath st) = (Ret (neutral, config), st1) →
     load_settings host config st1 = (Ret manifest, st2) →
     load_generic_neutral host neutral st2 = (Ret base, st3) →
     load_expressions host folderpath manifest st3 = (Ret (names, models), st4) →
     load_identities host fuel folderpath st4
       = (Ret (identity_names, identity_models), st5) →
     assembles host →
     models ≠ [] ∨ identity_models ≠ [] →
     ∃ st', loadICTFaceModel host fuel folderpath st
            = (Ret (length models, length identity_models), st')).
Proof.
  split_and!.
  - intros name rest names models st e st1 filepath Hfound Himport.
    rewrite expressions_loop_cons. cbn zeta. fold filepath. rewrite Hfound.
    rewrite import_expression_run. cbn zeta. cbn [scene trace].
    rewrite import_obj_run in Himport. cbn zeta in Himport. cbn [scene trace] in Himport.
    destruct (obj_import_outcome host filepath (scene st)) as [[status sc|cls msg sc]|];
      [discriminate|..]; injection Himport as <- <-; reflexivity.
  - intros fuel n names models st e st1 filepath Hfound Himport.
    rewrite identities_loop_S. cbn zeta. fold filepath. rewrite Hfound.
    rewrite import_identity_run. cbn zeta. cbn [scene trace].
    rewrite import_obj_run in Himport. cbn zeta in Himport. cbn [scene trace] in Himport.
    destruct (obj_import_outcome host filepath (scene st)) as [[status sc|cls msg sc]|];
      [discriminate|..]; injection Himport as <- <-; reflexivity.
  - intros declared names models st. apply expressions_loop_total.
  - intros fuel n names models st e st'. apply identities_loop_no_raise.
  - intros. by eapply loadICTFaceModel_returns.
Qed.

(** The import of frown raises: smile is collected all the same.  The
    import of identity001 raises: identity002 is never tried. *)
Lemma import_exception_policies_witness :
  ∃ st',
    loadICTFaceModel
      (Demo.host "/m" ["/m/generic_neutral_mesh.obj"; "/m/vertex_indices.json";
                       "/m/frown.obj"; "/m/smile.obj"; "/m/identity000.obj";
                       "/m/identity001.obj"; "/m/identity002.obj"]
         (Loaded (JObj [("expressions", JArr [JStr "frown"; JStr "smile"])]))
         ["/m/frown.obj"; "/m/identity001.obj"] [])
      9 "/m" Demo.empty
    = (Ret (1, 1), st').
Proof.
  eapply (proj2 (proj2 (proj2 (proj2
            (import_exception_policies
               (Demo.host "/m" ["/m/generic_neutral_mesh.obj"; "/m/vertex_indices.json";
                                "/m/frown.obj"; "/m/smile.obj"; "/m/identity000.obj";
                                "/m/identity001.obj"; "/m/identity002.obj"]
                  (Loaded (JObj [("expressions", JArr [JStr "frown"; JStr "smile"])]))
                  ["/m/frown.obj"; "/m/identity001.obj"] [])
               "/m")))) 9 Demo.empty _ _ _ _ _ _ _ _ [_] _ _ [_]).
  - vm_compute. reflexivity.
  - vm_compute. reflexivity.
  - vm_compute. reflexivity.
  - vm_compute. reflexivity.
  - vm_compute. reflexivity.
  - apply demo_assembles.
  - left. discriminate.
Defined.

(** ** A manifest without [expressions] *)

(** C7, as stated, fails.  The manifest holds an object without the key
    [expressions] and the folder holds one identity file.  The manifest is
    accepted, yet the loader does not go on with an empty expression loop to
    return (0, 1): the lookup of the key raises KeyError, out of the loader. *)
Lemma missing_key_counterexample :
  let host :=
    Demo.host "/m" ["/m/generic_neutral_mesh.obj"; "/m/vertex_indices.json";
                    "/m/identity000.obj"]
      (Loaded (JObj [("vertices", JArr [JInt 1; JInt 2])])) [] [] in
  (loadICTFaceModel host 9 "/m" Demo.empty).1 = Raise (KeyError "expressions") ∧
  ¬ (∃ st', loadICTFaceModel host 9 "/m" Demo.empty = (Ret (0, 1), st')) ∧
  ¬ (∃ st st', load_expressions host "/m" (JObj [("vertices", JArr [JInt 1; JInt 2])]) st
               = (Ret ([], []), st')).
Proof.
  cbn zeta. split_and!.
  - vm_compute. reflexivity.
  - intros (st' & Hrun). vm_compute in Hrun. discriminate Hrun.
  - intros (st & st' & Hrun). discriminate Hrun.
Qed.

(** C7, amended.  A manifest that is a non-empty object without the key
    [expressions] passes the reading of the settings.  The expression stage
    then raises KeyError for the key at once, with no file probed or imported;
    so, once the neutral mesh is imported, the loader fails with that KeyError
    in the state the import of the neutral mesh left. *)
Theorem missing_key_raises host fuel folderpath st members :
  let neutral := path_join folderpath generic_neutral_filename in
  let config := path_join folderpath config_filename in
  path_isdir host folderpath = true →
  path_exists host neutral = true →
  path_exists host config = true →
  json_load host config = Loaded (JObj members) →
  members ≠ [] →
  dict_get members "expressions" = None →
  ∃ st2,
    (st1 ← check_inputs host folderpath; load_settings host st1.2) (started folderpath st)
      = (Ret (JObj members), st2) ∧
    (∀ st3, load_expressions host folderpath (JObj members) st3
            = (Raise (KeyError "expressions"), st3)) ∧
    (∀ base st3,
       load_generic_neutral host neutral st2 = (Ret base, st3) →
       loadICTFaceModel host fuel folderpath st = (Raise (KeyError "expressions"), st3) ∧
       import_calls (trace st3) = neutral :: import_calls (trace st) ∧
       probes (trace st3) = config :: neutral :: probes (trace st)).
Proof.
  intros neutral config Hdir Hneutral Hconfig Hload Hmembers Hkey.
  assert (∀ st3, load_expressions host folderpath (JObj members) st3
                 = (Raise (KeyError "expressions"), st3)) as Hexpr.
  { intros st3. unfold load_expressions, subscript. by rewrite Hkey. }
  unfold mbind at 1, M_bind at 1.
  rewrite loadICTFaceModel_stages, check_inputs_run. cbn zeta. fold neutral config.
  rewrite Hdir, Hneutral, Hconfig. cbn [snd]. rewrite load_settings_run, Hload. cbn zeta.
  assert (truthy (JObj members) = true) as -> by by destruct members.
  eexists. split_and!; [reflexivity|exact Hexpr|].
  intros base st3 Hbase. rewrite Hbase, Hexpr. split; [reflexivity|].
  rewrite load_generic_neutral_run in Hbase. cbn zeta in Hbase.
  destruct (obj_import_outcome host _ _) as [[status sc|cls msg sc]|];
    [|discriminate..].
  destruct (selected sc); [discriminate|]. by injection Hbase as <- <-.
Qed.

Lemma missing_key_raises_witness :
  ∃ st3,
    loadICTFaceModel
      (Demo.host "/m" ["/m/generic_neutral_mesh.obj"; "/m/vertex_indices.json";
                       "/m/identity000.obj"]
         (Loaded (JObj [("vertices", JArr [JInt 1; JInt 2])])) [] [])
      9 "/m" Demo.empty
    = (Raise (KeyError "expressions"), st3) ∧
    import_calls (trace st3) = ["/m/generic_neutral_mesh.obj"] ∧
    probes (trace st3) = ["/m/vertex_indices.json"; "/m/generic_neutral_mesh.obj"].
Proof.
  destruct (missing_key_raises
              (Demo.host "/m" ["/m/generic_neutral_mesh.obj"; "/m/vertex_indices.json";
                               "/m/identity000.obj"]
                 (Loaded (JObj [("vertices", JArr [JInt 1; JInt 2])])) [] [])
              9 "/m" Demo.empty [("vertices", JArr [JInt 1; JInt 2])])
    as (st2 & Hsettings & _ & Hrest);
    [reflexivity|reflexivity|reflexivity|reflexivity|discriminate|reflexivity|].
  injection Hsettings as <-.
  eexists. eapply Hrest. vm_compute. reflexivity.
Defined.

(** ** The neutral mesh *)

Lemma rename_named (h : nat) (name : string) (objs : list object) (o : object) :
  o ∈ rename h name <$> objs → ob_id o = h → ob_name o = name.
Proof.
  intros (o' & -> & _)%list_elem_of_fmap. unfold rename.
  destruct (Nat.eqb (ob_id o') h) eqn:Heq; [done|].
  intros Hid. apply Nat.eqb_neq in Heq. done.
Qed.

Lemma selected_in_scene (h : nat) (sc : Scene) :
  h ∈ selected sc → ∃ o, o ∈ objects sc ∧ ob_id o = h.
Proof.
  unfold selected. intros (o & -> & Hin)%list_elem_of_fmap.
  apply list_elem_of_In, List.filter_In in Hin as [Hin _].
  exists o. split; [by apply list_elem_of_In|done].
Qed.

(** A renaming removes no object. *)
Lemma present_in_rename (h' : nat) (name : string) (sc : Scene) (h : nat) :
  present_in sc h →
  present_in (MkScene (rename h' name <$> objects sc) (active sc)) h.
Proof.
  intros (o & Hin & Hid). exists (rename h' name o). split.
  - by apply list_elem_of_fmap_2.
  - unfold rename. by destruct (Nat.eqb (ob_id o) h').
Qed.

(** The loader from the assembly on, once the three stages before it have
    returned with something collected. *)
Lemma loadICTFaceModel_assembly host fuel folderpath st manifest base st3
    names models st4 identity_names identity_models st5 :
  path_isdir host folderpath = true →
  path_exists host (path_join folderpath generic_neutral_filename) = true →
  path_exists host (path_join folderpath config_filename) = true →
  json_load host (path_join folderpath config_filename) = Loaded manifest →
  truthy manifest = true →
  load_generic_neutral host (path_join folderpath generic_neutral_filename)
    (settled folderpath st) = (Ret base, st3) →
  load_expressions host folderpath manifest st3 = (Ret (names, models), st4) →
  load_identities host fuel folderpath st4
    = (Ret (identity_names, identity_models), st5) →
  models ≠ [] ∨ identity_models ≠ [] →
  let sc := joined_scene base models identity_models (scene st5) in
  loadICTFaceModel host fuel folderpath st =
    match object_join_shapes host sc with
    | OpRaised cls msg sc1 =>
        (Raise (HostError cls msg), MkState sc1 (EvJoinShapes sc :: trace st5))
    | OpReturned _ sc1 =>
        match object_delete host sc1 with
        | OpRaised cls msg sc2 =>
            (Raise (HostError cls msg),
             MkState sc2 (EvDelete sc1 :: EvJoinShapes sc :: trace st5))
        | OpReturned _ sc2 =>
            (Ret (length models, length identity_models),
             MkState sc2 (EvDelete sc1 :: EvJoinShapes sc :: trace st5))
        end
    end.
Proof.
  intros Hdir Hneutral Hconfig Hload Htruthy Hbase Hexpressions Hidentities Hne sc.
  rewrite (loadICTFaceModel_settled _ _ _ _ _ Hdir Hneutral Hconfig Hload Htruthy),
    Hbase, Hexpressions, Hidentities, (join_morph_targets_run _ _ _ _ _ Hne).
  cbn zeta. fold (joined_scene base models identity_models (scene st5)). fold sc.
  destruct (object_join_shapes host sc) as [s1 sc1|cls msg sc1]; [|reflexivity].
  destruct (object_delete host sc1) as [s2 sc2|cls msg sc2]; reflexivity.
Qed.

(** C8, as stated, fails, in two ways.

    The name.  The folder is loaded a second time, into a scene that still
    holds the ICTFaceModel of the first load, on a host that keeps names
    unique: the import of the neutral mesh succeeds, and the object it
    yields is not named ICTFaceModel but ICTFaceModel.001.

    The failure of the service.  The operator returns [{'CANCELLED'}] and
    leaves the scene as it was, with the cube the user had selected: the
    service reports a failure and yields no object, yet no ImportError is
    raised; the cube is taken for the neutral mesh. *)
Lemma neutral_import_counterexample :
  let neutral := "/m/generic_neutral_mesh.obj" in
  let files := [neutral; "/m/vertex_indices.json"; "/m/smile.obj"] in
  let reloaded := MkState (MkScene [Object 0 "ICTFaceModel" false] (Some 0)) [] in
  let picked := MkState (MkScene [Object 0 "Cube" true] (Some 0)) [] in
  let cancelling := Unique.host "/m" files Demo.smile_frown [neutral] in
  (∃ st', load_generic_neutral (Unique.host "/m" files Demo.smile_frown []) neutral reloaded
          = (Ret 1, st') ∧
          objects (scene st')
            = [Object 0 "ICTFaceModel" false; Object 1 "ICTFaceModel.001" true] ∧
          ¬ (∀ o, o ∈ objects (scene st') → ob_id o = 1 → ob_name o = "ICTFaceModel")) ∧
  obj_import_outcome cancelling neutral (scene picked)
    = Some (OpReturned CANCELLED (scene picked)) ∧
  (∃ st', load_generic_neutral cancelling neutral picked = (Ret 0, st') ∧
          objects (scene st') = [Object 0 "ICTFaceModel" true]) ∧
  ¬ (∃ e st', load_generic_neutral cancelling neutral picked = (Raise e, st')).
Proof.
  cbn zeta. split_and!.
  - eexists. split_and!; [vm_compute; reflexivity|reflexivity|].
    intros Hnamed.
    specialize (Hnamed (Object 1 "ICTFaceModel.001" true)
                  ltac:(cbn; apply list_elem_of_further, list_elem_of_here) eq_refl).
    discriminate Hnamed.
  - reflexivity.
  - eexists. split; [vm_compute; reflexivity|reflexivity].
  - intros (e & st' & Hrun). vm_compute in Hrun. discriminate Hrun.
Qed.

(** C8, amended.  The import of the neutral mesh fails exactly when
    [import_obj] raises or returns with no object selected, whatever status
    the operator returns, and it fails with an ImportError; it always ends.
    When it succeeds, its result is the first selected object, which stays in
    the scene and has been assigned the name ICTFaceModel: it carries the
    name the host stores for that assignment.  In the loader the import is run
    on the file generic_neutral_mesh.obj of the folder, as soon as the
    settings are read: when it fails, the loader fails with its ImportError;
    when it succeeds and the loops return with something collected,
    [join_shapes] is run on the scene in which the collected objects are
    selected and that object is active, and the loader ends as [join_shapes]
    and [delete] do. *)
Theorem neutral_import host :
  (∀ filepath st,
     let attempted :=
       MkState (scene st)
         (EvLog INFO ("Attempting to import neutral mesh: " +:+ filepath) :: trace st) in
     ((∃ e st', load_generic_neutral host filepath st = (Raise e, st')) ↔
        (∃ e st1, import_obj host filepath attempted = (Raise e, st1)) ∨
        (∃ status st1, import_obj host filepath attempted = (Ret status, st1) ∧
                       selected (scene st1) = [])) ∧
     (∀ e st', load_generic_neutral host filepath st = (Raise e, st') →
        ∃ msg, e = ImportError msg ∧ kind_of e = Some Spec.ImportError) ∧
     (∀ st', load_generic_neutral host filepath st ≠ (Timeout, st')) ∧
     (∀ status st1 base others,
        import_obj host filepath attempted = (Ret status, st1) →
        selected (scene st1) = base :: others →
        ∃ st', load_generic_neutral host filepath st = (Ret base, st') ∧
          present_in (scene st') base ∧
          (∀ o, o ∈ objects (scene st') → ob_id o = base →
             ob_name o = stored_name host (scene st1) base "ICTFaceModel"))) ∧
  (∀ fuel folderpath st manifest,
     let neutral := path_join folderpath generic_neutral_filename in
     path_isdir host folderpath = true →
     path_exists host neutral = true →
     path_exists host (path_join folderpath config_filename) = true →
     json_load host (path_join folderpath config_filename) = Loaded manifest →
     truthy manifest = true →
     (∀ e st3,
        load_generic_neutral host neutral (settled folderpath st) = (Raise e, st3) →
        loadICTFaceModel host fuel folderpath st = (Raise e, st3)) ∧
     (∀ base st3 names models st4 identity_names identity_models st5,
        load_generic_neutral host neutral (settled folderpath st) = (Ret base, st3) →
        load_expressions host folderpath manifest st3 = (Ret (names, models), st4) →
        load_identities host fuel folderpath st4
          = (Ret (identity_names, identity_models), st5) →
        models ≠ [] ∨ identity_models ≠ [] →
        let sc := joined_scene base models identity_models (scene st5) in
        active sc = Some base ∧
        loadICTFaceModel host fuel folderpath st =
          match object_join_shapes host sc with
          | OpRaised cls msg sc1 =>
              (Raise (HostError cls msg), MkState sc1 (EvJoinShapes sc :: trace st5))
          | OpReturned _ sc1 =>
              match object_delete host sc1 with
              | OpRaised cls msg sc2 =>
                  (Raise (HostError cls msg),
                   MkState sc2 (EvDelete sc1 :: EvJoinShapes sc :: trace st5))
              | OpReturned _ sc2 =>
                  (Ret (length models, length identity_models),
                   MkState sc2 (EvDelete sc1 :: EvJoinShapes sc :: trace st5))
              end
          end)).
Proof.
  split.
  - intros filepath st attempted.
    rewrite load_generic_neutral_run, import_obj_run. cbn zeta. subst attempted.
    cbn [scene trace].
    destruct (obj_import_outcome host filepath (scene st)) as [[status sc|cls msg sc]|].
    + destruct (selected sc) as [|base others] eqn:Hsel.
      * split_and!; [|intros e st' [= <- <-]; eauto|discriminate|].
        { split; [intros _|eauto]. right. eauto. }
        intros s st1 b os [= <- <-] Hsel'. cbn [scene] in Hsel'. congruence.
      * split_and!; [|discriminate|discriminate|].
        { split; [intros (e & st' & [=])|].
          intros [(e & st1 & [=])|(s & st1 & [= <- <-] & Hnil)].
          cbn [scene] in Hnil. congruence. }
        intros s st1 b os [= <- <-] Hsel'. cbn [scene] in Hsel' |- *.
        assert (b = base) as -> by congruence.
        eexists. split_and!; [reflexivity| |].
        -- cbn [scene]. apply present_in_rename, selected_in_scene.
           rewrite Hsel. apply list_elem_of_here.
        -- cbn [scene objects]. apply rename_named.
    + split_and!; [|intros e st' [= <- <-]; eauto|discriminate|discriminate].
      split; [intros _|eauto]. left. eauto.
    + split_and!; [|intros e st' [= <- <-]; eauto|discriminate|discriminate].
      split; [intros _|eauto]. left. eauto.
  - intros fuel folderpath st manifest neutral Hdir Hneutral Hconfig Hload Htruthy.
    split.
    + intros e st3 Hbase.
      rewrite (loadICTFaceModel_settled _ _ _ _ _ Hdir Hneutral Hconfig Hload Htruthy).
      fold neutral. by rewrite Hbase.
    + intros base st3 names models st4 identity_names identity_models st5
        Hbase Hexpressions Hidentities Hne sc.
      split; [reflexivity|].
      by eapply loadICTFaceModel_assembly.
Qed.

(** The folder of the first scenario: the neutral mesh is object 0, and it is
    the active object when [join_shapes] is run on the three objects, smile
    and identity000 selected. *)
Lemma neutral_import_witness :
  let host :=
    Demo.host "/m" ["/m/generic_neutral_mesh.obj"; "/m/vertex_indices.json";
                    "/m/smile.obj"; "/m/identity000.obj"] Demo.smile_frown [] [] in
  let sc :=
    MkScene [Object 0 "ICTFaceModel" false; Object 1 "smile" true;
             Object 2 "identity000" true] (Some 0) in
  ∃ tr,
    loadICTFaceModel host 9 "/m" Demo.empty
      = (Ret (1, 1),
         MkState (MkScene [Object 0 "ICTFaceModel" false] (Some 0))
           (EvDelete sc :: EvJoinShapes sc :: tr)).
Proof.
  cbn zeta. eexists.
  destruct (proj2 (neutral_import
                     (Demo.host "/m" ["/m/generic_neutral_mesh.obj";
                                      "/m/vertex_indices.json"; "/m/smile.obj";
                                      "/m/identity000.obj"] Demo.smile_frown [] []))
              9 "/m" Demo.empty
              (JObj [("expressions", JArr [JStr "smile"; JStr "frown"])])
              ltac:(reflexivity) ltac:(reflexivity) ltac:(reflexivity)
              ltac:(reflexivity) ltac:(reflexivity)) as [_ Hanchor].
  destruct (Hanchor 0 _ ["smile"] [1] _ ["identity000"] [2] _
              ltac:(vm_compute; reflexivity) ltac:(vm_compute; reflexivity)
              ltac:(vm_compute; reflexivity) ltac:(left; discriminate))
    as [_ Hrun].
  rewrite Hrun. vm_compute. reflexivity.
Defined.

(** ** The scenarios of the specification *)

Example scenario_smile_identity000 :
  (loadICTFaceModel
     (Demo.host "/m" ["/m/generic_neutral_mesh.obj"; "/m/vertex_indices.json";
                      "/m/smile.obj"; "/m/identity000.obj"] Demo.smile_frown [] [])
     9 "/m" Demo.empty).1 = Ret (1, 1).
Proof. vm_compute. reflexivity. Qed.

Example scenario_smile_only :
  (loadICTFaceModel
     (Demo.host "/m" ["/m/generic_neutral_mesh.obj"; "/m/vertex_indices.json";
                      "/m/smile.obj"] Demo.smile_frown [] [])
     9 "/m" Demo.empty).1 = Ret (1, 0).
Proof. vm_compute. reflexivity. Qed.

Example scenario_gap_at_2 :
  (loadICTFaceModel
     (Demo.host "/m" ["/m/generic_neutral_mesh.obj"; "/m/vertex_indices.json";
                      "/m/identity000.obj"; "/m/identity001.obj"; "/m/identity003.obj"]
        Demo.smile_frown [] [])
     9 "/m" Demo.empty).1 = Ret (0, 2).
Proof. vm_compute. reflexivity. Qed.

(** * Further properties of the loader *)

Section MoreLoops.
Context (host : Host) (folderpath : string).

Lemma import_expression_calls name filepath st r st' :
  import_expression host name filepath st = (r, st') →
  import_calls (trace st') = filepath :: import_calls (trace st) ∧
  probes (trace st') = probes (trace st).
Proof.
  rewrite import_expression_run. cbn zeta.
  destruct (obj_import_outcome host filepath (scene st)) as [[status sc|cls msg sc]|];
    [destruct (selected sc)|..]; intros [= <- <-]; done.
Qed.

Lemma import_identity_calls name filepath st r st' :
  import_identity host name filepath st = (r, st') →
  import_calls (trace st') = filepath :: import_calls (trace st).
Proof.
  rewrite import_identity_run. cbn zeta.
  destruct (obj_import_outcome host filepath (scene st)) as [[status sc|cls msg sc]|];
    [destruct (selected sc)|..]; intros [= <- <-]; done.
Qed.

(** X1.  The expression loop over a list in two parts is the loop over the
    first part, then, if that returned, the loop over the second part from
    the names, objects and state it reached. *)
Theorem expressions_loop_app items1 items2 names models st :
  expressions_loop host folderpath (items1 ++ items2) names models st =
    match expressions_loop host folderpath items1 names models st with
    | (Ret (names', models'), st') =>
        expressions_loop host folderpath items2 names' models' st'
    | r => r
    end.
Proof.
  revert names models st. induction items1 as [|item items1 IH]; intros names models st.
  - reflexivity.
  - destruct item as [| | | |name| |]; try reflexivity.
    cbn [app]. rewrite !expressions_loop_cons. cbn zeta.
    destruct (path_exists host _); [|apply IH].
    destruct (import_expression host name _ _) as [[[h|]|e|] st1];
      [apply IH|apply IH|reflexivity..].
Qed.

(** X2.  An item of [expressions] that is not a string: the names before it
    are gone through as usual (probed, imported, collected), then the loop
    raises TypeError in the state it has reached; what follows the item is
    not looked at. *)
Theorem non_string_item_aborts bad names rest acc_names acc_models st :
  (∀ s, bad ≠ JStr s) →
  ∃ names' models' st',
    expressions_loop host folderpath (JStr <$> names) acc_names acc_models st
      = (Ret (names', models'), st') ∧
    expressions_loop host folderpath ((JStr <$> names) ++ bad :: rest)
      acc_names acc_models st
      = (Raise (TypeError BadOperand), st').
Proof.
  intros Hbad. revert acc_names acc_models st.
  induction names as [|name names IH]; intros acc_names acc_models st.
  - exists acc_names, acc_models, st. split; [done|].
    destruct bad as [| | | |s| |]; try reflexivity. by destruct (Hbad s).
  - rewrite fmap_cons. cbn [app]. rewrite !expressions_loop_cons. cbn zeta.
    destruct (path_exists host _); [|apply IH].
    destruct (import_expression_returns host name (expression_filepath folderpath name)
                (MkState (scene st)
                   (EvExists (expression_filepath folderpath name) :: trace st)))
      as ([h|] & st1 & ->); apply IH.
Qed.

(** X3.  Whatever the imports do, the expression loop over names asks for
    the file of every name once, in manifest order, and calls [import_obj]
    once on each file that exists, in that order, and on no other. *)
Theorem expression_files_in_order names acc_names acc_models st r st' :
  expressions_loop host folderpath (JStr <$> names) acc_names acc_models st = (r, st') →
  probes (trace st')
    = reverse (expression_filepath folderpath <$> names) ++ probes (trace st) ∧
  import_calls (trace st')
    = reverse (List.filter (path_exists host) (expression_filepath folderpath <$> names))
      ++ import_calls (trace st).
Proof.
  revert acc_names acc_models st.
  induction names as [|name names IH]; intros acc_names acc_models st.
  - intros [= <- <-]. done.
  - rewrite !fmap_cons, expressions_loop_cons. cbn zeta. cbn [List.filter].
    rewrite !reverse_cons.
    destruct (path_exists host (expression_filepath folderpath name)).
    + destruct (import_expression_returns host name
                  (expression_filepath folderpath name)
                  (MkState (scene st)
                     (EvExists (expression_filepath folderpath name) :: trace st)))
        as (imported & st1 & Hround).
      rewrite Hround. apply import_expression_calls in Hround as [Hcalls Hprobes].
      cbn [trace probes] in Hprobes.
      destruct imported as [h|]; intros [-> ->]%IH;
        rewrite reverse_cons, Hcalls, Hprobes, <- !app_assoc; done.
    + intros [-> ->]%IH. cbn [trace probes import_calls]. rewrite <- !app_assoc. done.
Qed.

End MoreLoops.

Section MoreIdentities.
Context (host : Host) (folderpath : string).

Lemma identities_loop_subsequence k :
  path_exists host (identity_filepath folderpath k) = false →
  ∀ (fuel n : nat) acc_names acc_models st names models st',
    (n ≤ k)%nat →
    identities_loop host fuel folderpath n acc_names acc_models st
      = (Ret (names, models), st') →
    ∃ picked new_models tried,
      names = acc_names ++ (identity_name <$> picked) ∧
      models = acc_models ++ new_models ∧
      length new_models = length picked ∧
      picked `sublist_of` seq n tried ∧
      (n + tried ≤ k)%nat ∧
      (∀ i, i ∈ seq n tried → path_exists host (identity_filepath folderpath i) = true) ∧
      import_calls (trace st')
        = reverse (identity_filepath folderpath <$> seq n tried)
          ++ import_calls (trace st).
Proof.
  intros Habsent. induction fuel as [|fuel IH];
    intros n acc_names acc_models st names models st' Hn; [discriminate|].
  rewrite identities_loop_S. cbn zeta.
  destruct (path_exists host (identity_filepath folderpath n)) eqn:Hfound.
  - assert (n ≠ k) by congruence.
    destruct (import_identity_returns host (identity_name n)
                (identity_filepath folderpath n)
                (MkState (scene st)
                   (EvExists (identity_filepath folderpath n) :: trace st)))
      as (r & st1 & Hround).
    rewrite Hround. apply import_identity_calls in Hround as Hcalls.
    cbn [trace import_calls] in Hcalls.
    destruct r as [h| |].
    + intros Hrun. apply IH in Hrun
        as (picked & ms & tried & -> & -> & Hlen & Hsub & Hle & Hpresent & ->); [|lia].
      exists (n :: picked), (h :: ms), (S tried). rewrite <- !app_assoc.
      split_and!; [done|done|cbn; lia|by constructor|lia| |].
      * intros i [->|Hi]%elem_of_cons; [done|by apply Hpresent].
      * cbn [seq fmap list_fmap]. rewrite reverse_cons, Hcalls, <- app_assoc. done.
    + intros Hrun. apply IH in Hrun
        as (picked & ms & tried & -> & -> & Hlen & Hsub & Hle & Hpresent & ->); [|lia].
      exists picked, ms, (S tried).
      split_and!; [done|done|done|by constructor|lia| |].
      * intros i [->|Hi]%elem_of_cons; [done|by apply Hpresent].
      * cbn [seq fmap list_fmap]. rewrite reverse_cons, Hcalls, <- app_assoc. done.
    + intros [= <- <- <-]. exists [], [], 1. rewrite !app_nil_r.
      split_and!; [done|done|done|apply sublist_nil_l|lia| |].
      * intros i [->|Hi]%elem_of_cons; [done|by apply elem_of_nil in Hi].
      * by rewrite Hcalls.
  - intros [= <- <- <-]. exists [], [], 0. rewrite !app_nil_r.
    split_and!; [done|done|done|constructor|lia| |done].
    intros i Hi. by apply elem_of_nil in Hi.
Qed.

(** X4.  Whatever the imports do, with no identity file at the index [k] the
    identity loop returns names that are, in order, among identity000 ..
    identity(k-1), one object per name, so at most [k] identities; and it has
    called [import_obj] on the files of the indices below some [tried <= k],
    in increasing order, all of which exist. *)
Theorem identity_names_subsequence k fuel st names models st' :
  path_exists host (identity_filepath folderpath k) = false →
  load_identities host fuel folderpath st = (Ret (names, models), st') →
  ∃ picked tried,
    names = identity_name <$> picked ∧
    picked `sublist_of` seq 0 tried ∧
    (tried ≤ k)%nat ∧
    length models = length names ∧
    (length models ≤ k)%nat ∧
    (∀ i, i < tried → path_exists host (identity_filepath folderpath i) = true) ∧
    import_calls (trace st')
      = reverse (identity_filepath folderpath <$> seq 0 tried) ++ import_calls (trace st).
Proof.
  intros Habsent Hrun.
  apply (identities_loop_subsequence k Habsent) in Hrun
    as (picked & ms & tried & -> & -> & Hlen & Hsub & Hle & Hpresent & Hcalls); [|lia].
  exists picked, tried. cbn [app].
  apply sublist_length in Hsub as Hcount. rewrite length_seq in Hcount.
  split_and!; [done|done|lia|by rewrite length_fmap|lia| |done].
  intros i Hi. apply Hpresent, elem_of_seq. lia.
Qed.

Lemma identities_loop_found fuel n names models st r st' :
  identities_loop host fuel folderpath n names models st = (r, st') →
  imports_found host st st'.
Proof.
  revert n names models st. induction fuel as [|fuel IH]; intros n names models st.
  { intros [= <- <-]. exists []. done. }
  rewrite identities_loop_S. cbn zeta.
  destruct (path_exists host (identity_filepath folderpath n)) eqn:Hfound.
  - destruct (import_identity_returns host (identity_name n)
                (identity_filepath folderpath n)
                (MkState (scene st)
                   (EvExists (identity_filepath folderpath n) :: trace st)))
      as (round & st1 & Hround).
    rewrite Hround. apply import_identity_calls in Hround as Hcalls.
    cbn [trace import_calls] in Hcalls.
    assert (imports_found host st st1) as Hfirst.
    { exists [identity_filepath folderpath n]. split; [done|]. by constructor. }
    destruct round as [h| |].
    + intros (calls & Heq & Hall)%IH. exists (calls ++ [identity_filepath folderpath n]).
      rewrite Heq, Hcalls, <- app_assoc. split; [done|].
      apply Forall_app. split; [done|by constructor].
    + intros (calls & Heq & Hall)%IH. exists (calls ++ [identity_filepath folderpath n]).
      rewrite Heq, Hcalls, <- app_assoc. split; [done|].
      apply Forall_app. split; [done|by constructor].
    + by intros [= <- <-].
  - intros [= <- <-]. exists []. done.
Qed.

Lemma expressions_loop_found items names models st r st' :
  expressions_loop host folderpath items names models st = (r, st') →
  imports_found host st st'.
Proof.
  revert names models st. induction items as [|item items IH]; intros names models st.
  { intros [= <- <-]. exists []. done. }
  destruct item as [| | | |name| |]; try (intros [= <- <-]; exists []; done).
  rewrite expressions_loop_cons. cbn zeta.
  destruct (path_exists host (expression_filepath folderpath name)) eqn:Hfound.
  - destruct (import_expression_returns host name
                (expression_filepath folderpath name)
                (MkState (scene st)
                   (EvExists (expression_filepath folderpath name) :: trace st)))
      as (imported & st1 & Hround).
    rewrite Hround. apply import_expression_calls in Hround as [Hcalls _].
    cbn [trace import_calls] in Hcalls.
    destruct imported as [h|]; intros (calls & Heq & Hall)%IH;
      exists (calls ++ [expression_filepath folderpath name]);
      rewrite Heq, Hcalls, <- app_assoc; (split; [done|]);
      apply Forall_app; (split; [done|by constructor]).
  - intros (calls & Heq & Hall)%IH. exists calls. done.
Qed.

End MoreIdentities.

Section MoreStages.
Context (host : Host).

Lemma join_morph_targets_calls base expression_models identity_models st r st' :
  join_morph_targets host base expression_models identity_models st = (r, st') →
  import_calls (trace st') = import_calls (trace st).
Proof.
  destruct (decide (expression_models = [] ∧ identity_models = [])) as [[-> ->]|Hne].
  { by intros [= <- <-]. }
  rewrite join_morph_targets_run; cbn zeta.
  - destruct (object_join_shapes host _) as [s1 sc1|cls msg sc1];
      [|by intros [= <- <-]].
    destruct (object_delete host sc1) as [s2 sc2|cls msg sc2]; by intros [= <- <-].
  - destruct expression_models, identity_models; [by destruct Hne|auto..].
Qed.

Lemma imports_found_refl st st' :
  import_calls (trace st') = import_calls (trace st) → imports_found host st st'.
Proof. intros Heq. exists []. done. Qed.

Lemma imports_found_trans st1 st2 st3 :
  imports_found host st1 st2 → imports_found host st2 st3 → imports_found host st1 st3.
Proof.
  intros (calls1 & Heq1 & Hall1) (calls2 & Heq2 & Hall2). exists (calls2 ++ calls1).
  rewrite Heq2, Heq1, app_assoc. split; [done|]. by apply Forall_app.
Qed.

Lemma load_expressions_found folderpath manifest st r st' :
  load_expressions host folderpath manifest st = (r, st') →
  imports_found host st st'.
Proof.
  unfold load_expressions.
  destruct (subscript manifest "expressions") as [e|declared];
    [intros [= <- <-]; by apply imports_found_refl|].
  unfold_M. cbn beta iota.
  destruct (iterate declared) as [e|items];
    [intros [= <- <-]; by apply imports_found_refl|].
  destruct (expressions_loop host folderpath items [] [] st) as [[acc|e|] st1] eqn:Hloop;
    intros [= <- <-]; by apply expressions_loop_found in Hloop.
Qed.

Lemma check_inputs_calls folderpath st r st' :
  check_inputs host folderpath st = (r, st') →
  import_calls (trace st') = import_calls (trace st) ∧
  (∀ neutral config, r = Ret (neutral, config) → path_exists host neutral = true).
Proof.
  rewrite check_inputs_run. cbn zeta.
  destruct (path_isdir host folderpath); [|by intros [= <- <-]].
  destruct (path_exists host (path_join folderpath generic_neutral_filename)) eqn:Hnp;
    [|by intros [= <- <-]].
  destruct (path_exists host (path_join folderpath config_filename));
    intros [= <- <-]; [|done].
  split; [done|]. by intros neutral config [= <- <-].
Qed.

Lemma load_settings_calls config_filepath st r st' :
  load_settings host config_filepath st = (r, st') →
  import_calls (trace st') = import_calls (trace st).
Proof.
  rewrite load_settings_run. cbn zeta.
  destruct (json_load host config_filepath) as [j| |]; [destruct (truthy j)|..];
    by intros [= <- <-].
Qed.

Lemma load_generic_neutral_calls filepath st r st' :
  load_generic_neutral host filepath st = (r, st') →
  import_calls (trace st') = filepath :: import_calls (trace st).
Proof.
  rewrite load_generic_neutral_run. cbn zeta.
  destruct (obj_import_outcome host filepath (scene st)) as [[status sc|cls msg sc]|];
    [destruct (selected sc)|..]; by intros [= <- <-].
Qed.

(** X5.  However the loader ends (it returns, raises or runs out of fuel),
    every file it has called [import_obj] on is a file [os.path.exists]
    holds to be there. *)
Theorem imports_only_found_files fuel folderpath st r st' :
  loadICTFaceModel host fuel folderpath st = (r, st') →
  imports_found host st st'.
Proof.
  rewrite loadICTFaceModel_stages.
  destruct (check_inputs host _ _) as [r1 st1] eqn:Hcheck.
  apply check_inputs_calls in Hcheck as [Hcalls1%imports_found_refl Hneutral].
  change (import_calls (trace (started folderpath st)))
    with (import_calls (trace st)) in Hcalls1.
  destruct r1 as [[np cp]|e|]; [|by intros [= <- <-]..].
  specialize (Hneutral np cp eq_refl).
  destruct (load_settings host cp st1) as [r2 st2] eqn:Hsettings.
  apply load_settings_calls, imports_found_refl in Hsettings.
  destruct r2 as [config|e|]; [|intros [= <- <-]; eauto using imports_found_trans..].
  destruct (load_generic_neutral host np st2) as [r3 st3] eqn:Hbase.
  apply load_generic_neutral_calls in Hbase.
  assert (imports_found host st2 st3) as Hcalls3.
  { exists [np]. split; [done|by constructor]. }
  destruct r3 as [base|e|]; [|intros [= <- <-]; eauto using imports_found_trans..].
  destruct (load_expressions host folderpath config st3) as [r4 st4] eqn:Hexpr.
  apply load_expressions_found in Hexpr.
  destruct r4 as [[en em]|e|]; [|intros [= <- <-]; eauto 6 using imports_found_trans..].
  destruct (load_identities host fuel folderpath st4) as [r5 st5] eqn:Hids.
  apply identities_loop_found in Hids.
  destruct r5 as [[inn im]|e|]; [|intros [= <- <-]; eauto 7 using imports_found_trans..].
  destruct (join_morph_targets host base em im st5) as [r6 st6] eqn:Hjoin.
  apply join_morph_targets_calls, imports_found_refl in Hjoin.
  destruct r6 as [u|e|]; intros [= <- <-]; eauto 8 using imports_found_trans.
Qed.

End MoreStages.

Section Errors.
Context (host : Host).

Lemma expressions_loop_raises folderpath items names models st e st' :
  expressions_loop host folderpath items names models st = (Raise e, st') →
  e = TypeError BadOperand.
Proof.
  revert names models st. induction items as [|item items IH]; intros names models st.
  - discriminate.
  - destruct item as [| | | |name| |]; try by intros [= <- <-].
    rewrite expressions_loop_cons. cbn zeta.
    destruct (path_exists host _); [|apply IH].
    destruct (import_expression_returns host name (expression_filepath folderpath name)
                (MkState (scene st)
                   (EvExists (expression_filepath folderpath name) :: trace st)))
      as ([h|] & st1 & ->); apply IH.
Qed.

Lemma load_expressions_raises folderpath manifest st e st' :
  load_expressions host folderpath manifest st = (Raise e, st') →
  e = KeyError "expressions" ∨ ∃ what, e = TypeError what.
Proof.
  unfold load_expressions, subscript.
  destruct manifest as [| | | | | |members]; try (intros [= <- <-]; eauto).
  destruct (dict_get members "expressions") as [declared|]; [|intros [= <- <-]; eauto].
  unfold_M. cbn beta iota.
  destruct (iterate declared) as [e'|items] eqn:Hitems.
  - intros [= <- <-]. right.
    destruct declared; try discriminate; injection Hitems as <-; eauto.
  - destruct (expressions_loop host folderpath items [] [] st) as [[acc|e'|] st1]
      eqn:Hloop; intros [= <- <-].
    apply expressions_loop_raises in Hloop. eauto.
Qed.

(** Whether the loop over [items] returns or raises is decided by the items
    alone. *)
Lemma expressions_loop_shape folderpath items names models st :
  ∃ r st', expressions_loop host folderpath items names models st = (r, st') ∧
    if forallb is_str items then ∃ names' models', r = Ret (names', models')
    else r = Raise (TypeError BadOperand).
Proof.
  revert names models st. induction items as [|item items IH]; intros names models st.
  - cbn. eauto 6.
  - destruct item as [| | | |name| |]; try solve [cbn; unfold_M; eauto].
    rewrite expressions_loop_cons. cbn zeta. cbn [forallb is_str andb].
    destruct (path_exists host _); [|apply IH].
    destruct (import_expression_returns host name (expression_filepath folderpath name)
                (MkState (scene st)
                   (EvExists (expression_filepath folderpath name) :: trace st)))
      as ([h|] & st1 & ->); apply IH.
Qed.

(** X6.  No exception that an import raises leaves one of the two loops.
    The expression stage (lines 99-123) raises exactly when the manifest has
    the wrong shape, before anything is done when the manifest is no object
    (TypeError), lacks the key [expressions] (KeyError) or holds at the key a
    value that cannot be iterated (TypeError), and with a TypeError in the
    course of the loop when an item is not a string; with items that are all
    strings it returns.  The identity stage (lines 125-155) never raises. *)
Theorem loops_raise_on_shape_only folderpath manifest st :
  (∃ r st', load_expressions host folderpath manifest st = (r, st') ∧
     match subscript manifest "expressions" with
     | inl e => r = Raise e ∧ st' = st
     | inr declared =>
         match iterate declared with
         | inl e => r = Raise e ∧ st' = st
         | inr items =>
             if forallb is_str items then ∃ names models, r = Ret (names, models)
             else r = Raise (TypeError BadOperand)
         end
     end) ∧
  (∀ e st', load_expressions host folderpath manifest st = (Raise e, st') →
     e = KeyError "expressions" ∨ ∃ what, e = TypeError what) ∧
  (∀ fuel e st', load_identities host fuel folderpath st ≠ (Raise e, st')).
Proof.
  split_and!.
  - unfold load_expressions.
    destruct (subscript manifest "expressions") as [e|declared]; [cbn; eauto|].
    unfold_M. cbn beta iota.
    destruct (iterate declared) as [e|items]; [eauto|].
    apply expressions_loop_shape.
  - intros e st'. apply load_expressions_raises.
  - intros fuel e st'. apply identities_loop_no_raise.
Qed.

End Errors.

Lemma select_models_flags (models : list nat) (objs : list object) :
  select_models models objs
    = (fun o => Object (ob_id o) (ob_name o)
                  (ob_select o || bool_decide (ob_id o ∈ models))) <$> objs.
Proof.
  revert objs. induction models as [|model models IH]; intros objs.
  - cbn. induction objs as [|[id name flag] objs IHobjs]; [done|].
    cbn. rewrite <- IHobjs. f_equal. f_equal.
    rewrite bool_decide_eq_false_2 by apply not_elem_of_nil. by rewrite orb_false_r.
  - cbn [select_models foldl]. fold (select_models models (mark_selected model <$> objs)).
    rewrite IH, <- list_fmap_compose. apply list_fmap_ext. intros i [id name flag] _.
    unfold compose, mark_selected. cbn [ob_id ob_name ob_select].
    destruct (Nat.eqb id model) eqn:Heq; cbn [ob_id ob_name ob_select].
    + apply Nat.eqb_eq in Heq as ->.
      rewrite (bool_decide_eq_true_2 (model ∈ model :: models))
        by apply list_elem_of_here.
      by rewrite orb_true_r.
    + apply Nat.eqb_neq in Heq. f_equal. f_equal.
      apply bool_decide_ext. rewrite elem_of_cons.
      split; [by right|by intros [?|?]].
Qed.

(** X7.  Selecting the collected objects for the assembly (lines 161-164)
    sets the selection flag of the objects with one of their handles and
    changes nothing else: no name, no handle, no other flag, not the order of
    the objects, not the active object. *)
Theorem select_all_flags (models : list nat) (st : state) :
  select_all models st
    = (Ret tt,
       MkState
         (MkScene
            ((fun o => Object (ob_id o) (ob_name o)
                         (ob_select o || bool_decide (ob_id o ∈ models)))
               <$> objects (scene st))
            (active (scene st)))
         (trace st)).
Proof. by rewrite select_all_scene, select_models_flags. Qed.

(** * The operator of the file browser *)

Section Dirname.
Local Arguments String.append !_ _ / : simpl nomatch.

Lemma rfind_sep_bound (p : string) :
  (-1 ≤ rfind_sep p < Z.of_nat (String.length p))%Z.
Proof.
  induction p as [|c p IH]; cbn [rfind_sep String.length]; [lia|].
  destruct (0 <=? rfind_sep p)%Z eqn:Hlast; [lia|].
  destruct (Ascii.eqb c "/"); lia.
Qed.

Lemma rfind_sep_app (a b : string) :
  rfind_sep (a +:+ b)
    = if (0 <=? rfind_sep b)%Z then (Z.of_nat (String.length a) + rfind_sep b)%Z
      else rfind_sep a.
Proof.
  induction a as [|c a IH]; cbn [String.append rfind_sep String.length].
  - pose proof (rfind_sep_bound b). destruct (0 <=? rfind_sep b)%Z eqn:Hb; lia.
  - rewrite IH. pose proof (rfind_sep_bound a).
    destruct (0 <=? rfind_sep b)%Z eqn:Hb; [|done].
    destruct (0 <=? Z.of_nat (String.length a) + rfind_sep b)%Z eqn:Hab; lia.
Qed.

Lemma substring_app_head (a b : string) :
  String.substring 0 (String.length a) (a +:+ b) = a.
Proof.
  induction a as [|c a IH]; cbn; [by destruct b|]. by rewrite IH.
Qed.

Lemma rfind_sep_endswith (a : string) :
  endswith_sep a = true → rfind_sep a = (Z.of_nat (String.length a) - 1)%Z.
Proof.
  induction a as [|c a IH]; [discriminate|].
  cbn [rfind_sep String.length]. destruct a as [|c' a].
  - cbn. intros ->. done.
  - intros Hends. rewrite IH by exact Hends. cbn [String.length].
    destruct (0 <=? _)%Z eqn:Hlast; [lia|apply Z.leb_gt in Hlast; lia].
Qed.

Lemma all_sep_app (a b : string) : all_sep (a +:+ b) = all_sep a && all_sep b.
Proof.
  induction a as [|c a IH]; cbn; [done|]. by rewrite IH, andb_assoc.
Qed.

Lemma rstrip_sep_app_sep (a : string) : rstrip_sep (a +:+ "/") = rstrip_sep a.
Proof. induction a as [|c a IH]; cbn; [done|]. by rewrite IH. Qed.

Lemma rstrip_sep_id (d : string) : endswith_sep d = false → rstrip_sep d = d.
Proof.
  induction d as [|c d IH]; [done|]. destruct d as [|c' d].
  - cbn. by intros ->.
  - intros Hends.
    change (rstrip_sep (String c (String c' d)))
      with (match rstrip_sep (String c' d) with
            | EmptyString =>
                if Ascii.eqb c "/" then EmptyString else String c EmptyString
            | String c0 r => String c (String c0 r)
            end).
    by rewrite IH.
Qed.

Lemma all_sep_endswith (d : string) :
  d ≠ "" → all_sep d = true → endswith_sep d = true.
Proof.
  induction d as [|c d IH]; [done|]. intros _. cbn [all_sep].
  intros [Hc Hd]%andb_prop. destruct d as [|c' d]; [exact Hc|].
  by apply IH.
Qed.

Lemma rstrip_sep_not_endswith (s : string) : endswith_sep (rstrip_sep s) = false.
Proof.
  induction s as [|c s IH]; [done|]. cbn [rstrip_sep].
  destruct (rstrip_sep s) as [|c' r].
  - destruct (Ascii.eqb c "/") eqn:Hc; [done|]. cbn. exact Hc.
  - exact IH.
Qed.

Lemma startswith_sep_rfind (f : string) :
  rfind_sep f = (-1)%Z → startswith_sep f = false.
Proof.
  destruct f as [|c f]; [done|]. cbn [rfind_sep startswith_sep].
  pose proof (rfind_sep_bound f).
  destruct (0 <=? rfind_sep f)%Z eqn:Hlast; [lia|].
  destruct (Ascii.eqb c "/"); [discriminate|done].
Qed.

Lemma dirname_join_plain (d f : string) :
  rfind_sep f = (-1)%Z → endswith_sep d = false →
  dirname (path_join d f) = d.
Proof.
  intros Hf Hends. unfold path_join. rewrite (startswith_sep_rfind f Hf), Hends.
  destruct (String.eqb_spec d "") as [->|Hd].
  { cbn [orb String.append]. unfold dirname. rewrite Hf. by destruct f. }
  cbn [orb]. unfold dirname; cbn zeta.
  assert (rfind_sep ("/" +:+ f) = 0%Z) as Hslash.
  { cbn [String.append rfind_sep]. by rewrite Hf. }
  rewrite rfind_sep_app, Hslash. cbn [Z.leb Z.compare].
  replace (Z.to_nat (Z.of_nat (String.length d) + 0 + 1))
    with (String.length (d +:+ "/")) by (rewrite string_app_length; cbn; lia).
  rewrite <- string_app_assoc, substring_app_head, all_sep_app, rstrip_sep_app_sep.
  cbn [all_sep Ascii.eqb Bool.eqb andb]. rewrite andb_true_r.
  assert (all_sep d = false) as ->.
  { destruct (all_sep d) eqn:Hall; [|done].
    apply all_sep_endswith in Hall; [congruence|done]. }
  rewrite rstrip_sep_id by done.
  destruct (String.eqb_spec (d +:+ "/") "") as [Hempty|_]; [|done].
  by destruct d.
Qed.

(** X8.  The folder of a file joined to a folder is that folder again, but
    for separators at its end: for a file name without separator,
    [dirname (join d f)] is [d] when [d] does not end in a separator or is
    made of separators only, and [d] without its trailing separators
    otherwise. *)
Theorem dirname_path_join (d f : string) :
  rfind_sep f = (-1)%Z →
  dirname (path_join d f) = if all_sep d then d else rstrip_sep d.
Proof.
  intros Hf. destruct (endswith_sep d) eqn:Hends.
  - unfold path_join. rewrite (startswith_sep_rfind f Hf), Hends, orb_true_r.
    unfold dirname; cbn zeta.
    rewrite rfind_sep_app, Hf. cbn [Z.leb Z.compare]. rewrite rfind_sep_endswith by done.
    replace (Z.to_nat (Z.of_nat (String.length d) - 1 + 1)) with (String.length d) by lia.
    rewrite substring_app_head.
    destruct (String.eqb_spec d "") as [->|_]; [done|]. cbn [negb andb].
    by destruct (all_sep d).
  - rewrite dirname_join_plain by done.
    destruct (all_sep d); [done|]. by rewrite rstrip_sep_id.
Qed.

(** X9.  The folder [dirname] gives does not end in a separator, unless it
    is made of separators only (the root). *)
Theorem dirname_no_trailing_sep (p : string) :
  endswith_sep (dirname p) = true → all_sep (dirname p) = true.
Proof.
  unfold dirname. cbn zeta.
  set (head := String.substring 0 _ p).
  destruct (String.eqb_spec head "") as [->|Hhead]; [done|]. cbn [negb andb].
  destruct (all_sep head) eqn:Hall; cbn [negb]; [done|].
  by rewrite rstrip_sep_not_endswith.
Qed.

End Dirname.

Section Operator.
Context (host : Host).
Import BrowseFaceModel.

Lemma execute_run fuel self st :
  execute host fuel self st =
    match loadICTFaceModel host fuel (dirname (filepath self)) (entered self st) with
    | (Ret (num_expressions, num_identities), st1) =>
        (Ret (FINISHED,
              report RPT_INFO (loaded_message num_expressions num_identities) self),
         MkState (scene st1)
           (EvLog INFO ("Successfully loaded " +:+ pretty num_expressions
                        +:+ " expressions and " +:+ pretty num_identities
                        +:+ " identities") :: trace st1))
    | (Raise e, st1) =>
        (Ret (CANCELLED,
              report RPT_ERROR ("Error loading face model: " +:+ str_exn e) self),
         MkState (scene st1) (EvLog ERROR "Error in execute:" :: trace st1))
    | (Timeout, st1) => (Timeout, st1)
    end.
Proof.
  unfold execute, entered. unfold_M. cbn [scene trace].
  destruct (loadICTFaceModel host fuel _ _) as [[[ne ni]|e|] st1]; reflexivity.
Qed.

(** X10.  The operator ends as the loader, run on the folder of the picked
    path, does.  When the loader returns the two counts, the operator returns
    FINISHED and reports them (INFO); when the loader raises, the operator
    returns CANCELLED and reports the error (ERROR) with the text of the
    exception (given for every exception but a TypeError of the interpreter);
    either way it makes that one report, keeps the picked path and leaves the
    scene as the loader left it.  So the operator never raises, and it returns
    FINISHED only when the loader returned and CANCELLED only when it
    raised. *)
Theorem execute_outcome fuel self st :
  match loadICTFaceModel host fuel (dirname (filepath self)) (entered self st) with
  | (Ret (num_expressions, num_identities), st1) =>
      ∃ st', execute host fuel self st
             = (Ret (FINISHED,
                     Operator (filepath self)
                       ((RPT_INFO, loaded_message num_expressions num_identities)
                        :: reports self)), st') ∧
             scene st' = scene st1
  | (Raise e, st1) =>
      ∃ text st', execute host fuel self st
             = (Ret (CANCELLED,
                     Operator (filepath self)
                       ((RPT_ERROR, "Error loading face model: " +:+ text)
                        :: reports self)), st') ∧
             scene st' = scene st1 ∧
             ((∀ what, e ≠ TypeError what) → text = str_exn e)
  | (Timeout, st1) => execute host fuel self st = (Timeout, st1)
  end ∧
  (∀ e st', execute host fuel self st ≠ (Raise e, st')) ∧
  (∀ self' st',
     execute host fuel self st = (Ret (FINISHED, self'), st') →
     ∃ counts st1,
       loadICTFaceModel host fuel (dirname (filepath self)) (entered self st)
         = (Ret counts, st1)) ∧
  (∀ self' st',
     execute host fuel self st = (Ret (CANCELLED, self'), st') →
     ∃ e st1,
       loadICTFaceModel host fuel (dirname (filepath self)) (entered self st)
         = (Raise e, st1)).
Proof.
  rewrite execute_run.
  destruct (loadICTFaceModel host fuel _ _) as [[[ne ni]|e|] st1];
    (split_and!; [|discriminate| |]); try discriminate; eauto.
Qed.

(** X11.  Picking a file that lies in a folder runs the loader on that
    folder: for a path [join d f], with [d] not ending in a separator and
    [f] without one, the operator returns FINISHED with the counts the loader
    returns on [d], and CANCELLED when the loader raises on [d]. *)
Theorem execute_picked_file fuel d f reported st :
  rfind_sep f = (-1)%Z →
  endswith_sep d = false →
  let self := Operator (path_join d f) reported in
  match loadICTFaceModel host fuel d (entered self st) with
  | (Ret (num_expressions, num_identities), st1) =>
      ∃ st', execute host fuel self st
             = (Ret (FINISHED,
                     Operator (path_join d f)
                       ((RPT_INFO, loaded_message num_expressions num_identities)
                        :: reported)), st') ∧
             scene st' = scene st1
  | (Raise e, st1) =>
      ∃ message st', execute host fuel self st
             = (Ret (CANCELLED,
                     Operator (path_join d f) ((RPT_ERROR, message) :: reported)), st') ∧
             scene st' = scene st1
  | (Timeout, st1) => execute host fuel self st = (Timeout, st1)
  end.
Proof.
  intros Hf Hd self.
  assert (dirname (filepath self) = d) as Hdir.
  { cbn [filepath self]. by apply dirname_join_plain. }
  rewrite execute_run, Hdir.
  destruct (loadICTFaceModel host fuel d _) as [[[ne ni]|e|] st1]; eauto.
Qed.

(** X12.  When the folder of the picked path is no directory, or lacks the
    neutral mesh or the configuration file, the operator returns CANCELLED and
    reports the error with the path that is missing; the scene is as it was
    and [import_obj] was not called. *)
Theorem execute_missing_input fuel self st :
  let directory := dirname (filepath self) in
  let neutral := path_join directory generic_neutral_filename in
  let config := path_join directory config_filename in
  path_isdir host directory = false ∨
  path_exists host neutral = false ∨
  path_exists host config = false →
  ∃ st',
    execute host fuel self st
      = (Ret (CANCELLED,
              report RPT_ERROR
                ("Error loading face model: " +:+
                 (if path_isdir host directory then
                    if path_exists host neutral
                    then "Cannot find config file: " +:+ config
                    else "Cannot find neutral mesh: " +:+ neutral
                  else "Invalid directory path: " +:+ directory))
                self), st') ∧
    scene st' = scene st ∧
    import_calls (trace st') = import_calls (trace st).
Proof.
  intros directory neutral config Hmissing.
  rewrite execute_run, loadICTFaceModel_stages, check_inputs_run. cbn zeta.
  fold directory neutral config.
  destruct (path_isdir host directory).
  - destruct (path_exists host neutral).
    + destruct (path_exists host config);
        [destruct Hmissing as [|[|]]; discriminate|].
      eexists. split_and!; reflexivity.
    + eexists. split_and!; reflexivity.
  - eexists. split_and!; reflexivity.
Qed.

End Operator.

(** * The further properties on the demonstration host *)

Lemma non_string_item_aborts_witness :
  ∃ st',
    expressions_loop
      (Demo.host "/m" ["/m/generic_neutral_mesh.obj"; "/m/vertex_indices.json";
                       "/m/smile.obj"; "/m/frown.obj"] Demo.smile_frown [] [])
      "/m" [JStr "smile"; JInt 3; JStr "frown"] [] [] Demo.empty
    = (Raise (TypeError BadOperand), st') ∧
    import_calls (trace st') = ["/m/smile.obj"].
Proof.
  destruct (non_string_item_aborts
              (Demo.host "/m" ["/m/generic_neutral_mesh.obj"; "/m/vertex_indices.json";
                               "/m/smile.obj"; "/m/frown.obj"] Demo.smile_frown [] [])
              "/m" (JInt 3) ["smile"] [JStr "frown"] [] [] Demo.empty
              ltac:(discriminate))
    as (names' & models' & st' & Hrun & Habort).
  vm_compute in Hrun. injection Hrun as <- <- <-.
  eexists. split; [exact Habort|reflexivity].
Defined.

Lemma expression_files_in_order_witness :
  let host :=
    Demo.host "/m" ["/m/generic_neutral_mesh.obj"; "/m/vertex_indices.json";
                    "/m/frown.obj"; "/m/smile.obj"] Demo.smile_frown
      ["/m/frown.obj"] [] in
  let run :=
    expressions_loop host "/m" [JStr "frown"; JStr "grin"; JStr "smile"] [] []
      Demo.empty in
  probes (trace run.2) = ["/m/smile.obj"; "/m/grin.obj"; "/m/frown.obj"] ∧
  import_calls (trace run.2) = ["/m/smile.obj"; "/m/frown.obj"].
Proof.
  intros host run.
  apply (expression_files_in_order host "/m" ["frown"; "grin"; "smile"] [] []
           Demo.empty run.1 run.2).
  apply surjective_pairing.
Defined.

Lemma identity_names_subsequence_witness :
  ∃ picked tried,
    ["identity001"] = identity_name <$> picked ∧
    picked `sublist_of` seq 0 tried ∧ (tried ≤ 2)%nat.
Proof.
  edestruct (identity_names_subsequence
               (Demo.host "/m" ["/m/generic_neutral_mesh.obj"; "/m/vertex_indices.json";
                                "/m/identity000.obj"; "/m/identity001.obj"]
                  Demo.smile_frown [] ["/m/identity000.obj"])
               "/m" 2 9 Demo.empty ["identity001"])
    as (picked & tried & Hnames & Hsub & Hle & _).
  - reflexivity.
  - vm_compute. reflexivity.
  - eauto.
Defined.

Lemma imports_only_found_files_witness :
  let host :=
    Demo.host "/m" ["/m/generic_neutral_mesh.obj"; "/m/vertex_indices.json";
                    "/m/smile.obj"; "/m/identity000.obj"] Demo.smile_frown [] [] in
  imports_found host Demo.empty (loadICTFaceModel host 9 "/m" Demo.empty).2.
Proof.
  intros host.
  apply (imports_only_found_files host 9 "/m" Demo.empty
           (loadICTFaceModel host 9 "/m" Demo.empty).1).
  apply surjective_pairing.
Defined.

(** smile is imported, then the number 3 stops the loop. *)
Lemma loops_raise_on_shape_only_witness :
  ∃ st',
    load_expressions
      (Demo.host "/m" ["/m/generic_neutral_mesh.obj"; "/m/vertex_indices.json";
                       "/m/smile.obj"] Demo.smile_frown [] [])
      "/m" (JObj [("expressions", JArr [JStr "smile"; JInt 3; JStr "frown"])]) Demo.empty
    = (Raise (TypeError BadOperand), st') ∧
    import_calls (trace st') = ["/m/smile.obj"].
Proof.
  destruct (loops_raise_on_shape_only
              (Demo.host "/m" ["/m/generic_neutral_mesh.obj"; "/m/vertex_indices.json";
                               "/m/smile.obj"] Demo.smile_frown [] [])
              "/m" (JObj [("expressions", JArr [JStr "smile"; JInt 3; JStr "frown"])])
              Demo.empty) as [(r & st' & Hrun & Hshape) _].
  cbn in Hshape. subst r. exists st'. split; [exact Hrun|].
  pose proof (f_equal snd Hrun) as Hstate. vm_compute in Hstate. by subst st'.
Defined.

Lemma dirname_path_join_witness :
  dirname (path_join "/m" "generic_neutral_mesh.obj") = "/m".
Proof. apply (dirname_path_join "/m" "generic_neutral_mesh.obj"). reflexivity. Defined.

Lemma dirname_no_trailing_sep_witness : all_sep (dirname "///x") = true.
Proof. apply (dirname_no_trailing_sep "///x"). reflexivity. Defined.

Lemma execute_outcome_witness :
  ∃ st',
    BrowseFaceModel.execute
      (Demo.host "/m" ["/m/generic_neutral_mesh.obj"; "/m/vertex_indices.json";
                       "/m/smile.obj"; "/m/identity000.obj"] Demo.smile_frown [] [])
      9 (BrowseFaceModel.Operator "/m/smile.obj" []) Demo.empty
    = (Ret (FINISHED,
            BrowseFaceModel.Operator "/m/smile.obj"
              [(RPT_INFO, BrowseFaceModel.loaded_message 1 1)]), st').
Proof.
  pose proof (execute_outcome
                (Demo.host "/m" ["/m/generic_neutral_mesh.obj";
                                 "/m/vertex_indices.json"; "/m/smile.obj";
                                 "/m/identity000.obj"] Demo.smile_frown [] [])
                9 (BrowseFaceModel.Operator "/m/smile.obj" []) Demo.empty)
    as [Hends _].
  destruct (loadICTFaceModel _ _ _ _) as [[[ne ni]|e|] st1] eqn:Hrun in Hends;
    vm_compute in Hrun; [|discriminate Hrun..].
  injection Hrun as <- <- _.
  destruct Hends as (st' & Hexecute & _). exists st'. exact Hexecute.
Defined.

Lemma execute_picked_file_witness :
  ∃ st',
    BrowseFaceModel.execute
      (Demo.host "/m" ["/m/generic_neutral_mesh.obj"; "/m/vertex_indices.json";
                       "/m/smile.obj"; "/m/identity000.obj"] Demo.smile_frown [] [])
      9 (BrowseFaceModel.Operator "/m/generic_neutral_mesh.obj" []) Demo.empty
    = (Ret (FINISHED,
            BrowseFaceModel.Operator "/m/generic_neutral_mesh.obj"
              [(RPT_INFO,
                "Face model loaded successfully with 1 expressions and 1 identities")]),
       st').
Proof.
  pose proof (execute_picked_file
                (Demo.host "/m" ["/m/generic_neutral_mesh.obj"; "/m/vertex_indices.json";
                                 "/m/smile.obj"; "/m/identity000.obj"]
                   Demo.smile_frown [] [])
                9 "/m" "generic_neutral_mesh.obj" [] Demo.empty eq_refl eq_refl) as Hpick.
  cbn zeta in Hpick.
  destruct (loadICTFaceModel _ 9 "/m" _) as [[[ne ni]|e|] st1] eqn:Hrun;
    vm_compute in Hrun; try discriminate Hrun.
  injection Hrun as <- <- <-. destruct Hpick as (st' & Hexecute & _).
  exists st'. exact Hexecute.
Defined.

Lemma execute_missing_input_witness :
  ∃ st',
    BrowseFaceModel.execute
      (Demo.host "/m" ["/m/vertex_indices.json"; "/m/smile.obj"] Demo.smile_frown [] [])
      9 (BrowseFaceModel.Operator "/m/smile.obj" []) Demo.empty
    = (Ret (CANCELLED,
            BrowseFaceModel.Operator "/m/smile.obj"
              [(RPT_ERROR,
                "Error loading face model: Cannot find neutral mesh: /m/generic_neutral_mesh.obj")]),
       st') ∧
    import_calls (trace st') = [].
Proof.
  destruct (execute_missing_input
              (Demo.host "/m" ["/m/vertex_indices.json"; "/m/smile.obj"]
                 Demo.smile_frown [] [])
              9 (BrowseFaceModel.Operator "/m/smile.obj" []) Demo.empty)
    as (st' & Hexecute & _ & Hcalls).
  - right. left. reflexivity.
  - exists st'. split; [exact Hexecute|exact Hcalls].
Defined.

(** * The names of the variants at the assembly *)

Section Distinct.
Context (host : Host) (Htidy : tidy_importer host).
#[local] Set Default Proof Using "Htidy".

Lemma all_present_keeps sc sc' hs :
  keeps_objects sc sc' → all_present sc hs → all_present sc' hs.
Proof using Type.
  intros Hkeeps [Hdistinct Hpresent]. split; [done|].
  intros h Hin. by apply Hkeeps, Hpresent.
Qed.

(** An import that returned: the object it selected first, once it is given
    its name, joins the objects collected so far. *)
Lemma all_present_imported filepath sc status sc' h rest name hs :
  obj_import_outcome host filepath sc = Some (OpReturned status sc') →
  selected sc' = h :: rest →
  all_present sc hs →
  all_present (MkScene (rename h name <$> objects sc') (active sc')) (hs ++ [h]).
Proof.
  intros Hop Hsel [Hdistinct Hpresent].
  pose proof (Htidy filepath sc) as Htidy'. rewrite Hop in Htidy'.
  destruct Htidy' as [Hkeeps Hfresh]. specialize (Hfresh h rest Hsel).
  split.
  - apply NoDup_app. split_and!; [done| |apply NoDup_singleton].
    intros h0 Hold Hnew%list_elem_of_singleton. subst h0. by apply Hfresh, Hpresent.
  - intros h0 [Hin|Hin%list_elem_of_singleton]%elem_of_app; apply present_in_rename.
    + by apply Hkeeps, Hpresent.
    + subst h0. apply selected_in_scene. rewrite Hsel. apply list_elem_of_here.
Qed.

Lemma import_expression_present name filepath st r st' hs :
  import_expression host name filepath st = (r, st') →
  all_present (scene st) hs →
  match r with
  | Ret (Some h) => all_present (scene st') (hs ++ [h])
  | _ => all_present (scene st') hs
  end.
Proof.
  rewrite import_expression_run. cbn zeta.
  pose proof (Htidy filepath (scene st)) as Hkeeps.
  destruct (obj_import_outcome host filepath (scene st)) as [[status sc|cls msg sc]|]
    eqn:Hop.
  - destruct (selected sc) as [|h rest] eqn:Hsel; intros [= <- <-] Hall.
    + eapply all_present_keeps; [apply Hkeeps|done].
    + by eapply all_present_imported.
  - intros [= <- <-] Hall. by eapply all_present_keeps.
  - by intros [= <- <-] Hall.
Qed.

Lemma import_identity_present name filepath st r st' hs :
  import_identity host name filepath st = (r, st') →
  all_present (scene st) hs →
  match r with
  | Ret (Collected h) => all_present (scene st') (hs ++ [h])
  | _ => all_present (scene st') hs
  end.
Proof.
  rewrite import_identity_run. cbn zeta.
  pose proof (Htidy filepath (scene st)) as Hkeeps.
  destruct (obj_import_outcome host filepath (scene st)) as [[status sc|cls msg sc]|]
    eqn:Hop.
  - destruct (selected sc) as [|h rest] eqn:Hsel; intros [= <- <-] Hall.
    + eapply all_present_keeps; [apply Hkeeps|done].
    + by eapply all_present_imported.
  - intros [= <- <-] Hall. by eapply all_present_keeps.
  - by intros [= <- <-] Hall.
Qed.

Lemma expressions_loop_present folderpath items acc_names acc_models st names models st'
    hs :
  expressions_loop host folderpath items acc_names acc_models st
    = (Ret (names, models), st') →
  all_present (scene st) hs →
  ∃ new, models = acc_models ++ new ∧ all_present (scene st') (hs ++ new).
Proof.
  revert acc_names acc_models st hs.
  induction items as [|item items IH]; intros acc_names acc_models st hs.
  - intros [= <- <- <-] Hall. exists []. by rewrite !app_nil_r.
  - destruct item as [| | | |name| |]; try discriminate.
    rewrite expressions_loop_cons. cbn zeta.
    destruct (path_exists host _).
    + destruct (import_expression host name _ _) as [[[h|]|e|] st1] eqn:Hround;
        try discriminate; intros Hrun Hall;
        eapply import_expression_present in Hround; [|exact Hall| |exact Hall].
      * apply (IH _ _ _ _ Hrun) in Hround as (new & -> & Hall').
        exists (h :: new). rewrite <- !app_assoc in *. done.
      * by apply (IH _ _ _ _ Hrun) in Hround.
    + intros Hrun Hall. by apply (IH _ _ _ _ Hrun).
Qed.

Lemma identities_loop_present folderpath fuel n acc_names acc_models st names models st'
    hs :
  identities_loop host fuel folderpath n acc_names acc_models st
    = (Ret (names, models), st') →
  all_present (scene st) hs →
  ∃ new, models = acc_models ++ new ∧ all_present (scene st') (hs ++ new).
Proof.
  revert n acc_names acc_models st hs.
  induction fuel as [|fuel IH]; intros n acc_names acc_models st hs; [discriminate|].
  rewrite identities_loop_S. cbn zeta.
  destruct (path_exists host _).
  - destruct (import_identity host _ _ _) as [[[h| |]|e|] st1] eqn:Hround;
      try discriminate; intros Hrun Hall;
      eapply import_identity_present in Hround; try exact Hall.
    + apply (IH _ _ _ _ _ Hrun) in Hround as (new & -> & Hall').
      exists (h :: new). rewrite <- !app_assoc in *. done.
    + by apply (IH _ _ _ _ _ Hrun) in Hround.
    + injection Hrun as <- <- <-. exists []. by rewrite !app_nil_r.
  - intros [= <- <- <-] Hall. exists []. by rewrite !app_nil_r.
Qed.

Lemma load_generic_neutral_present filepath st base st' :
  load_generic_neutral host filepath st = (Ret base, st') →
  all_present (scene st') [base].
Proof using Type.
  rewrite load_generic_neutral_run. cbn zeta.
  destruct (obj_import_outcome host filepath (scene st)) as [[status sc|cls msg sc]|];
    [|discriminate..].
  destruct (selected sc) as [|h rest] eqn:Hsel; [discriminate|].
  intros [= <- <-]. cbn [scene]. split; [apply NoDup_singleton|].
  intros h0 Hin%list_elem_of_singleton. subst h0.
  apply present_in_rename, selected_in_scene. rewrite Hsel. apply list_elem_of_here.
Qed.

(** X13.  On a host whose importer removes no object and selects a new
    object each time it returns: once the neutral mesh is imported and the
    loops have returned with something collected, the loader runs
    [join_shapes] on a scene in which the neutral mesh is active and every
    object the two loops collected is there and selected; these objects and
    the neutral mesh are pairwise different objects of that scene. *)
Theorem variants_distinct_at_assembly fuel folderpath st manifest base st3
    names models st4 identity_names identity_models st5 :
  path_isdir host folderpath = true →
  path_exists host (path_join folderpath generic_neutral_filename) = true →
  path_exists host (path_join folderpath config_filename) = true →
  json_load host (path_join folderpath config_filename) = Loaded manifest →
  truthy manifest = true →
  load_generic_neutral host (path_join folderpath generic_neutral_filename)
    (settled folderpath st) = (Ret base, st3) →
  load_expressions host folderpath manifest st3 = (Ret (names, models), st4) →
  load_identities host fuel folderpath st4
    = (Ret (identity_names, identity_models), st5) →
  models ≠ [] ∨ identity_models ≠ [] →
  let sc := joined_scene base models identity_models (scene st5) in
  (∃ r st', loadICTFaceModel host fuel folderpath st = (r, st') ∧
            EvJoinShapes sc ∈ trace st') ∧
  active sc = Some base ∧
  NoDup (base :: models ++ identity_models) ∧
  (∀ h, h ∈ base :: models ++ identity_models → present_in sc h) ∧
  (∀ h, h ∈ models ++ identity_models → selected_in sc h).
Proof.
  intros Hdir Hneutral Hconfig Hload Htruthy Hbase Hexpressions Hidentities Hne sc.
  split_and!.
  - rewrite (loadICTFaceModel_assembly _ _ _ _ _ _ _ _ _ _ _ _ _
               Hdir Hneutral Hconfig Hload Htruthy Hbase Hexpressions Hidentities Hne).
    cbn zeta. fold sc.
    destruct (object_join_shapes host sc) as [s1 sc1|cls msg sc1].
    + destruct (object_delete host sc1) as [s2 sc2|cls msg sc2];
        eexists _, _; (split; [reflexivity|]); cbn [trace];
        apply list_elem_of_further, list_elem_of_here.
    + eexists _, _. split; [reflexivity|]. cbn [trace]. apply list_elem_of_here.
  - reflexivity.
  - apply load_generic_neutral_present in Hbase.
    assert (∃ new, models = [] ++ new ∧ all_present (scene st4) ([base] ++ new))
      as (? & -> & Hall4).
    { revert Hexpressions. unfold load_expressions.
      destruct (subscript manifest "expressions") as [e|declared]; [discriminate|].
      unfold_M. cbn beta iota.
      destruct (iterate declared) as [e|items]; [discriminate|].
      intros Hloop. by eapply expressions_loop_present in Hloop. }
    eapply identities_loop_present in Hidentities as (? & -> & [Hdistinct _]);
      [|exact Hall4].
    cbn [app] in *. exact Hdistinct.
  - apply load_generic_neutral_present in Hbase.
    assert (∃ new, models = [] ++ new ∧ all_present (scene st4) ([base] ++ new))
      as (? & -> & Hall4).
    { revert Hexpressions. unfold load_expressions.
      destruct (subscript manifest "expressions") as [e|declared]; [discriminate|].
      unfold_M. cbn beta iota.
      destruct (iterate declared) as [e|items]; [discriminate|].
      intros Hloop. by eapply expressions_loop_present in Hloop. }
    eapply identities_loop_present in Hidentities as (? & -> & [_ Hpresent]);
      [|exact Hall4].
    cbn [app] in *. intros h Hin.
    destruct (Hpresent h Hin) as (o & Ho & Hid).
    subst sc. unfold joined_scene, present_in. cbn [objects].
    rewrite !select_models_flags, <- list_fmap_compose.
    eexists. split; [by apply list_elem_of_fmap_2|done].
  - intros h Hin. subst sc. unfold joined_scene, selected_in. cbn [objects].
    rewrite !select_models_flags, <- list_fmap_compose.
    intros o (o0 & -> & Hin0)%list_elem_of_fmap.
    unfold compose. cbn [ob_id ob_select]. intros ->.
    apply elem_of_app in Hin as [Hin|Hin].
    + rewrite (bool_decide_eq_true_2 _ Hin). by rewrite !orb_true_r.
    + rewrite (bool_decide_eq_true_2 _ Hin). by rewrite !orb_true_r.
Qed.

End Distinct.

Lemma studio_tidy folder files manifest :
  tidy_importer (Studio.host folder files manifest).
Proof.
  intros filepath sc. unfold obj_import_outcome. cbn. split.
  - intros h (o & Hin & Hid). exists (Demo.deselect o). split; [|done].
    cbn [objects]. apply elem_of_app. left. by apply list_elem_of_fmap_2.
  - unfold selected. cbn [objects].
    rewrite List.filter_app, demo_deselect_all. cbn.
    intros h rest [= <- _] (o & Ho & Hid).
    apply (list_elem_of_fmap_2 ob_id), max_list_elem_of_le in Ho. lia.
Qed.

Lemma variants_distinct_at_assembly_witness :
  ∃ r st' sc,
    loadICTFaceModel
      (Studio.host "/m" ["/m/generic_neutral_mesh.obj"; "/m/vertex_indices.json";
                         "/m/smile.obj"; "/m/identity000.obj"; "/m/identity001.obj"]
         Demo.smile_frown)
      9 "/m" Demo.empty = (r, st') ∧
    EvJoinShapes sc ∈ trace st' ∧
    active sc = Some 1 ∧
    (∀ h, h ∈ [2; 3; 4] → selected_in sc h).
Proof.
  destruct (variants_distinct_at_assembly
              (Studio.host "/m" ["/m/generic_neutral_mesh.obj"; "/m/vertex_indices.json";
                                 "/m/smile.obj"; "/m/identity000.obj";
                                 "/m/identity001.obj"] Demo.smile_frown)
              (studio_tidy _ _ _) 9 "/m" Demo.empty
              (JObj [("expressions", JArr [JStr "smile"; JStr "frown"])])
              1 _ ["smile"] [2] _ ["identity000"; "identity001"] [3; 4] _
              ltac:(reflexivity) ltac:(reflexivity) ltac:(reflexivity)
              ltac:(reflexivity) ltac:(reflexivity)
              ltac:(vm_compute; reflexivity) ltac:(vm_compute; reflexivity)
              ltac:(vm_compute; reflexivity) ltac:(left; discriminate))
    as ((r & st' & Hrun & Hjoin) & Hactive & _ & _ & Hselected).
  eexists r, st', _. split_and!; [exact Hrun|exact Hjoin|exact Hactive|exact Hselected].
Defined.

(** * Paths and names *)

Lemma expression_filepath_absolute (folderpath name : string) :
  startswith_sep name = true →
  expression_filepath folderpath name = name +:+ ".obj".
Proof.
  intros Habsolute. unfold expression_filepath, path_join.
  assert (startswith_sep (name +:+ ".obj") = true) as ->; [|done].
  by destruct name.
Qed.

(** X14.  The names of a manifest that begin with a separator are looked
    for where they say, not in the folder: over such names the expression
    loop does the same whatever folder it is given. *)
Theorem absolute_names_ignore_folder host folder1 folder2 names acc_names acc_models st :
  Forall (fun name => startswith_sep name = true) names →
  expressions_loop host folder1 (JStr <$> names) acc_names acc_models st
    = expressions_loop host folder2 (JStr <$> names) acc_names acc_models st.
Proof.
  intros Habsolute. revert acc_names acc_models st.
  induction Habsolute as [|name names Hname _ IH]; intros acc_names acc_models st;
    [done|].
  rewrite !fmap_cons, !expressions_loop_cons. cbn zeta.
  rewrite !(expression_filepath_absolute _ name Hname).
  destruct (path_exists host _); [|apply IH].
  destruct (import_expression host name _ _) as [[[h|]|e|] st1]; [apply IH..|done|done].
Qed.

Lemma absolute_names_ignore_folder_witness :
  let host :=
    Demo.host "/m" ["/m/generic_neutral_mesh.obj"; "/m/vertex_indices.json";
                    "/tmp/smile.obj"] Demo.smile_frown [] [] in
  expressions_loop host "/m" [JStr "/tmp/smile"] [] [] Demo.empty
    = expressions_loop host "/elsewhere" [JStr "/tmp/smile"] [] [] Demo.empty ∧
  import_calls (trace (expressions_loop host "/m" [JStr "/tmp/smile"] [] [] Demo.empty).2)
    = ["/tmp/smile.obj"].
Proof.
  intros host. split; [|reflexivity].
  apply (absolute_names_ignore_folder host "/m" "/elsewhere" ["/tmp/smile"]).
  by constructor.
Defined.

(** X15.  Two indices never share an identity file: the names
    identity000, identity001, .. are different for different indices, beyond
    999 as well, where the number takes more than three digits. *)
Theorem identity_files_distinct (folderpath : string) (n m : nat) :
  n ≠ m →
  identity_name n ≠ identity_name m ∧
  identity_filepath folderpath n ≠ identity_filepath folderpath m.
Proof.
  intros Hne. split.
  - unfold identity_name. intros Heq%(inj (String.app "identity")).
    by apply format_03d_inj in Heq.
  - by intros Heq%identity_filepath_inj.
Qed.

Lemma identity_files_distinct_witness :
  identity_name 999 ≠ identity_name 1000 ∧
  identity_filepath "/m" 999 ≠ identity_filepath "/m" 1000.
Proof. apply (identity_files_distinct "/m" 999 1000). lia. Defined.

(** * A manifest that is no object *)

(** X16.  A manifest that Python takes for true and that is no object (a
    list, a string, a number, [true]) passes the reading of the settings;
    the loader then imports the neutral mesh and fails with TypeError at the
    lookup of [expressions], the object of the neutral mesh staying in the
    scene and no other file having been asked for. *)
Theorem non_object_manifest host fuel folderpath st manifest :
  let neutral := path_join folderpath generic_neutral_filename in
  let config := path_join folderpath config_filename in
  path_isdir host folderpath = true →
  path_exists host neutral = true →
  path_exists host config = true →
  json_load host config = Loaded manifest →
  truthy manifest = true →
  (∀ members, manifest ≠ JObj members) →
  ∀ base st3,
    load_generic_neutral host neutral
      (MkState (scene st)
         (EvOpen config :: EvExists config :: EvExists neutral :: EvIsDir folderpath
          :: trace (started folderpath st))) = (Ret base, st3) →
    loadICTFaceModel host fuel folderpath st
      = (Raise (TypeError NotSubscriptable), st3) ∧
    present_in (scene st3) base ∧
    import_calls (trace st3) = neutral :: import_calls (trace st) ∧
    probes (trace st3) = config :: neutral :: probes (trace st).
Proof.
  intros neutral config Hdir Hneutral Hconfig Hload Htruthy Hshape base st3 Hbase.
  rewrite loadICTFaceModel_stages, check_inputs_run. cbn zeta. fold neutral config.
  rewrite Hdir, Hneutral, Hconfig, load_settings_run, Hload. cbn zeta. rewrite Htruthy.
  unfold started in *. cbn [scene trace] in *. rewrite Hbase.
  assert (load_expressions host folderpath manifest st3
          = (Raise (TypeError NotSubscriptable), st3)) as ->.
  { destruct manifest; try reflexivity. by destruct (Hshape members). }
  split_and!; [reflexivity| | |].
  - apply load_generic_neutral_present in Hbase as [_ Hpresent].
    apply Hpresent, list_elem_of_here.
  - apply load_generic_neutral_calls in Hbase. exact Hbase.
  - rewrite load_generic_neutral_run in Hbase. cbn zeta in Hbase.
    destruct (obj_import_outcome host _ _) as [[status sc|cls msg sc]|];
      [|discriminate..].
    destruct (selected sc); [discriminate|]. by injection Hbase as <- <-.
Qed.

Lemma non_object_manifest_witness :
  ∃ st3,
    loadICTFaceModel
      (Demo.host "/m" ["/m/generic_neutral_mesh.obj"; "/m/vertex_indices.json";
                       "/m/smile.obj"] (Loaded (JArr [JStr "smile"])) [] [])
      9 "/m" Demo.empty
    = (Raise (TypeError NotSubscriptable), st3) ∧
    present_in (scene st3) 0 ∧
    import_calls (trace st3) = ["/m/generic_neutral_mesh.obj"].
Proof.
  edestruct (non_object_manifest
               (Demo.host "/m" ["/m/generic_neutral_mesh.obj"; "/m/vertex_indices.json";
                                "/m/smile.obj"] (Loaded (JArr [JStr "smile"])) [] [])
               9 "/m" Demo.empty (JArr [JStr "smile"])
               eq_refl eq_refl eq_refl eq_refl eq_refl ltac:(discriminate) 0)
    as (Hrun & Hnamed & Hcalls & _).
  - vm_compute. reflexivity.
  - eexists. split_and!; [exact Hrun|exact Hnamed|exact Hcalls].
Defined.
